(** * DHTLib_GPA788: the single-wire DHT sensor driver of the lab1 sketch

    A shallow embedding of [dhtlib_gpa788] (DHTLib_GPA788.cpp and its header)
    and the properties of its acquisition and decode steps.

    The driver talks to the board through four kinds of primitives: pin
    configuration and level writes, delays, reads of the port input register
    and reads of the microsecond clock.  The writes and delays are recorded in
    a log; the two kinds of reads are answered by a [Board], which gives the
    value of the k-th register read and of the k-th clock read. *)

From Stdlib Require Import ZArith List Bool Lia.
From Stdlib Require Import Floats.SpecFloat.
From Stdlib Require String.
Import ListNotations.
Import String.StringSyntax.
Delimit Scope string_scope with string.
Open Scope Z_scope.

(** ** Numeric types *)

(** [double] on the AVR target of the sketch (ATmega328P, avr-gcc) is the
    IEEE 754 binary32 format: 24 bits of precision, exponents below 128. *)
Module Double.

Definition prec : Z := 24.
Definition emax : Z := 128.

Definition double : Type := spec_float.

(** Conversion of an integer value ([static_cast<double>], and the implicit
    conversions of [uint8_t] and [uint16_t] operands). *)
Definition of_Z (n : Z) : double := binary_normalize prec emax n 0 false.

Definition mul (x y : double) : double := SFmul prec emax x y.
Definition div (x y : double) : double := SFdiv prec emax x y.
Definition opp (x : double) : double := SFopp x.
(** The [==] of C++ on two doubles. *)
Definition eqb (x y : double) : bool := SFeqb x y.

(** The literal [0.1], rounded to nearest: 13421773 * 2^-27. *)
Definition tenth : double := S754_finite false 13421773 (-27).

(** The values 0.5, 45.0 and 23.0 of the examples. *)
Definition half : double := S754_finite false 8388608 (-24).
Definition lit_45 : double := S754_finite false 11796480 (-18).
Definition lit_23 : double := S754_finite false 12058624 (-19).

(** A value carries a minus sign. *)
Definition signbit (x : double) : bool :=
  match x with
  | S754_zero s => s
  | S754_infinity s => s
  | S754_nan => false
  | S754_finite s _ _ => s
  end.

End Double.
Import Double.

Definition uint8 (n : Z) : Z := n mod 256.
Definition uint16 (n : Z) : Z := n mod 65536.
Definition uint32 (n : Z) : Z := n mod 4294967296.

(** [word(h, l)] of the Arduino core, on two bytes: [(h << 8) | l] as a
    16-bit unsigned value. *)
Definition word (h l : Z) : Z := uint16 (Z.lor (Z.shiftl h 8) l).

(** ** Status codes and constants (dhtlib_gpa788.h) *)

Inductive DHTLIB_ErrorCode : Type :=
| DHTLIB_OK
| DHTLIB_ERROR_CHECKSUM
| DHTLIB_ERROR_TIMEOUT
| DHTLIB_INVALID_VALUE.

(** The [int16_t] value of each enumerator. *)
Definition code_value (c : DHTLIB_ErrorCode) : Z :=
  match c with
  | DHTLIB_OK => 0
  | DHTLIB_ERROR_CHECKSUM => -1
  | DHTLIB_ERROR_TIMEOUT => -2
  | DHTLIB_INVALID_VALUE => -999
  end.

Definition code_eqb (a b : DHTLIB_ErrorCode) : bool := code_value a =? code_value b.

(** [static_cast<double>(DHTLIB_ErrorCode::...)]. *)
Definition double_of_code (c : DHTLIB_ErrorCode) : double := of_Z (code_value c).

(** The value written to both fields when no valid reading is available. *)
Definition sentinel : double := double_of_code DHTLIB_INVALID_VALUE.

Definition DHTLIB_DHT11_WAKEUP : Z := 18.
Definition DHTLIB_DHT_WAKEUP : Z := 1.

(** ** The board *)

(** What the driver takes from the board: [F_CPU] is the clock rate macro of
    the build, [line k] the outcome of the k-th evaluation of
    [( *PIR & bit) != LOW], where [PIR] and [bit] are the input register and
    the bit mask of the connected pin, and [clock k] the value of the k-th
    call of [micros()]. *)
Record Board : Type := mkBoard {
  F_CPU : Z;
  line : nat -> bool;
  clock : nat -> Z
}.

(** [const uint16_t DHTLIB_TIMEOUT = (F_CPU/40000);] *)
Definition DHTLIB_TIMEOUT (b : Board) : Z := uint16 (Z.quot (F_CPU b) 40000).

Inductive PinMode : Type := INPUT | OUTPUT.
Inductive Level : Type := LOW | HIGH.

Inductive Event : Type :=
| EvPinMode (pin : Z) (m : PinMode)
| EvDigitalWrite (pin : Z) (l : Level)
| EvDelay (ms : Z)
| EvDelayMicroseconds (us : Z).

(** ** The driver object *)

(** [uint8_t bits[5]]: a buffer of exactly five bytes. *)
Record Frame : Type := mkFrame {
  byte0 : Z; byte1 : Z; byte2 : Z; byte3 : Z; byte4 : Z
}.

Definition zero_frame : Frame := mkFrame 0 0 0 0 0.

(** Reading and writing [bits[i]]; [None] outside of the array. *)
Definition frame_get (f : Frame) (i : Z) : option Z :=
  match i with
  | 0 => Some (byte0 f)
  | 1 => Some (byte1 f)
  | 2 => Some (byte2 f)
  | 3 => Some (byte3 f)
  | 4 => Some (byte4 f)
  | _ => None
  end.

Definition frame_set (f : Frame) (i : Z) (v : Z) : option Frame :=
  match i with
  | 0 => Some (mkFrame v (byte1 f) (byte2 f) (byte3 f) (byte4 f))
  | 1 => Some (mkFrame (byte0 f) v (byte2 f) (byte3 f) (byte4 f))
  | 2 => Some (mkFrame (byte0 f) (byte1 f) v (byte3 f) (byte4 f))
  | 3 => Some (mkFrame (byte0 f) (byte1 f) (byte2 f) v (byte4 f))
  | 4 => Some (mkFrame (byte0 f) (byte1 f) (byte2 f) (byte3 f) v)
  | _ => None
  end.

Record dhtlib_gpa788 : Type := mkDht {
  bits : Frame;
  humidity : double;
  temperature : double;
  connected_pin : Z
}.

(** The default constructor: both fields start at the invalid value; the
    buffer and the pin are whatever they are given as. *)
Definition construct (f : Frame) (pin : Z) : dhtlib_gpa788 :=
  mkDht f sentinel sentinel pin.

(** The object together with the board-side state: how many register reads
    and clock reads have happened, and the log of pin writes and delays. *)
Record Machine : Type := mkMachine {
  dht : dhtlib_gpa788;
  polls : nat;
  ticks : nat;
  pinlog : list Event
}.

Definition with_dht (m : Machine) (d : dhtlib_gpa788) : Machine :=
  mkMachine d (polls m) (ticks m) (pinlog m).

Definition with_bits (m : Machine) (f : Frame) : Machine :=
  with_dht m (mkDht f (humidity (dht m)) (temperature (dht m)) (connected_pin (dht m))).

(** ** A state monad with early return *)

Inductive Res (A : Type) : Type :=
| Val (a : A) (m : Machine)                  (* the statement completed *)
| Ret (rv : DHTLIB_ErrorCode) (m : Machine)  (* a [return rv;] left the function *)
| OutOfBounds                                (* access outside of [bits] *)
| OutOfFuel.                                 (* a loop was cut off *)
Arguments Val {A} a m.
Arguments Ret {A} rv m.
Arguments OutOfBounds {A}.
Arguments OutOfFuel {A}.

Definition M (A : Type) : Type := Machine -> Res A.

Definition ret {A : Type} (a : A) : M A := fun m => Val a m.

Definition bind {A B : Type} (c : M A) (k : A -> M B) : M B :=
  fun m =>
    match c m with
    | Val a m' => k a m'
    | Ret rv m' => Ret rv m'
    | OutOfBounds => OutOfBounds
    | OutOfFuel => OutOfFuel
    end.

Notation "x <- c ;; k" := (bind c (fun x => k))
  (at level 61, c at next level, right associativity).
Notation "c ;;; k" := (bind c (fun _ => k))
  (at level 61, right associativity).

(** [return rv;] *)
Definition return_ {A : Type} (rv : DHTLIB_ErrorCode) : M A := fun m => Ret rv m.

(** The body of a function returning a status code, seen from its caller. *)
Definition call (body : M DHTLIB_ErrorCode) : M DHTLIB_ErrorCode :=
  fun m =>
    match body m with
    | Ret rv m' => Val rv m'
    | r => r
    end.

(** *** Primitives *)

Definition emit (e : Event) : M unit :=
  fun m => Val tt (mkMachine (dht m) (polls m) (ticks m) (pinlog m ++ [e])).

Definition pinMode (pin : Z) (md : PinMode) : M unit := emit (EvPinMode pin md).
Definition digitalWrite (pin : Z) (l : Level) : M unit := emit (EvDigitalWrite pin l).
Definition delay (ms : Z) : M unit := emit (EvDelay ms).
Definition delayMicroseconds (us : Z) : M unit := emit (EvDelayMicroseconds us).

(** One evaluation of [( *PIR & bit) != LOW]. *)
Definition read_line (b : Board) : M bool :=
  fun m => Val (line b (polls m)) (mkMachine (dht m) (S (polls m)) (ticks m) (pinlog m)).

(** [micros()], an [unsigned long] of 32 bits. *)
Definition micros (b : Board) : M Z :=
  fun m => Val (uint32 (clock b (ticks m))) (mkMachine (dht m) (polls m) (S (ticks m)) (pinlog m)).

Definition get_pin : M Z := fun m => Val (connected_pin (dht m)) m.

Definition load_bits (i : Z) : M Z :=
  fun m =>
    match frame_get (bits (dht m)) i with
    | Some v => Val v m
    | None => OutOfBounds
    end.

Definition store_bits (i : Z) (v : Z) : M unit :=
  fun m =>
    match frame_set (bits (dht m)) i v with
    | Some f => Val tt (with_bits m f)
    | None => OutOfBounds
    end.

Definition get_temperature : M double := fun m => Val (temperature (dht m)) m.

(** Assignments to the two reading fields and to the pin field. *)
Definition put_humidity (v : double) : M unit :=
  fun m => Val tt (with_dht m (mkDht (bits (dht m)) v (temperature (dht m)) (connected_pin (dht m)))).

Definition put_temperature (v : double) : M unit :=
  fun m => Val tt (with_dht m (mkDht (bits (dht m)) (humidity (dht m)) v (connected_pin (dht m)))).

Definition put_pin (v : Z) : M unit :=
  fun m => Val tt (with_dht m (mkDht (bits (dht m)) (humidity (dht m)) (temperature (dht m)) v)).

(** ** _readSensor *)

(** The number of iterations after which every busy-poll loop has either
    seen its transition or counted its 16-bit counter down to zero. *)
Definition poll_fuel : nat := Z.to_nat 65536.

(** [while ((( *PIR & bit) != LOW) == level) { if (--loopCnt == 0) return DHTLIB_ERROR_TIMEOUT; }]
    with [level = false] for the loops waiting while the line is low and
    [level = true] for those waiting while it is high. *)
Fixpoint busy_poll (b : Board) (level : bool) (fuel : nat) (loopCnt : Z) : M unit :=
  match fuel with
  | O => fun _ => OutOfFuel
  | S fuel' =>
      v <- read_line b ;;
      if Bool.eqb v level then
        let loopCnt' := uint16 (loopCnt - 1) in
        if loopCnt' =? 0 then return_ DHTLIB_ERROR_TIMEOUT
        else busy_poll b level fuel' loopCnt'
      else ret tt
  end.

(** [for (uint8_t i = 0; i < 5; i++) bits[i] = 0;] from index [i] on, [n]
    iterations being left. *)
Fixpoint clear_bits (n : nat) (i : Z) : M unit :=
  match n with
  | O => ret tt
  | S n' => store_bits i 0 ;;; clear_bits n' (i + 1)
  end.

(** [mask >>= 1; if (mask == 0) { mask = 128; idx++; }] *)
Definition next_bit (mi : Z * Z) : Z * Z :=
  let mask := Z.shiftr (fst mi) 1 in
  if mask =? 0 then (128, uint8 (snd mi + 1)) else (mask, snd mi).

(** The loop [for (uint8_t i = 40; i != 0; i--)], [i] iterations being left. *)
Fixpoint read_bits (b : Board) (i : nat) (mi : Z * Z) : M unit :=
  match i with
  | O => ret tt
  | S i' =>
      busy_poll b false poll_fuel (DHTLIB_TIMEOUT b) ;;;
      t <- micros b ;;
      busy_poll b true poll_fuel (DHTLIB_TIMEOUT b) ;;;
      t' <- micros b ;;
      (if 40 <? uint32 (t' - t)
       then (v <- load_bits (snd mi) ;; store_bits (snd mi) (Z.lor v (fst mi)))
       else ret tt) ;;;
      read_bits b i' (next_bit mi)
  end.

(** The mask starts at 128 and the index at 0; they are the argument of the
    bit loop. *)
Definition _readSensor (b : Board) (wakeupDelay : Z) : M DHTLIB_ErrorCode :=
  call (
    (* EMPTY BUFFER *)
    clear_bits 5 0 ;;;
    (* REQUEST SAMPLE *)
    pin <- get_pin ;;
    pinMode pin OUTPUT ;;;
    digitalWrite pin LOW ;;;
    delay wakeupDelay ;;;
    digitalWrite pin HIGH ;;;
    delayMicroseconds 40 ;;;
    pinMode pin INPUT ;;;
    (* GET ACKNOWLEDGE or TIMEOUT *)
    busy_poll b false poll_fuel (DHTLIB_TIMEOUT b) ;;;
    busy_poll b true poll_fuel (DHTLIB_TIMEOUT b) ;;;
    (* READ THE OUTPUT - 40 BITS => 5 BYTES *)
    read_bits b 40 (128, 0) ;;;
    pinMode pin OUTPUT ;;;
    digitalWrite pin HIGH ;;;
    ret DHTLIB_OK).

(** ** The public operations *)

Definition read11 (b : Board) : M DHTLIB_ErrorCode :=
  (* READ VALUES *)
  rv <- _readSensor b DHTLIB_DHT11_WAKEUP ;;
  if negb (code_eqb rv DHTLIB_OK) then
    put_humidity (double_of_code DHTLIB_INVALID_VALUE) ;;;
    put_temperature (double_of_code DHTLIB_INVALID_VALUE) ;;;
    ret rv
  else
    (* CONVERT AND STORE *)
    b0 <- load_bits 0 ;;
    put_humidity (of_Z b0) ;;;
    b2 <- load_bits 2 ;;
    put_temperature (of_Z b2) ;;;
    (* TEST CHECKSUM *)
    b1 <- load_bits 1 ;;
    b3 <- load_bits 3 ;;
    let sum := uint8 (b0 + b2 + b1 + b3) in
    b4 <- load_bits 4 ;;
    if negb (b4 =? sum) then ret DHTLIB_ERROR_CHECKSUM
    else ret DHTLIB_OK.

Definition _read (b : Board) : M DHTLIB_ErrorCode :=
  (* READ VALUES *)
  rv <- _readSensor b DHTLIB_DHT11_WAKEUP ;;
  if negb (code_eqb rv DHTLIB_OK) then
    put_humidity (double_of_code DHTLIB_INVALID_VALUE) ;;;
    put_temperature (double_of_code DHTLIB_INVALID_VALUE) ;;;
    ret rv
  else
    (* CONVERT AND STORE *)
    b0 <- load_bits 0 ;;
    b1 <- load_bits 1 ;;
    put_humidity (mul (of_Z (word b0 b1)) tenth) ;;;
    b2 <- load_bits 2 ;;
    b3 <- load_bits 3 ;;
    put_temperature (mul (of_Z (word (Z.land b2 127) b3)) tenth) ;;;
    (if negb (Z.land b2 128 =? 0)  (* negative temperature *)
     then (t <- get_temperature ;; put_temperature (opp t))
     else ret tt) ;;;
    (* TEST CHECKSUM *)
    let sum := uint8 (b0 + b1 + b2 + b3) in
    b4 <- load_bits 4 ;;
    if negb (b4 =? sum) then ret DHTLIB_ERROR_CHECKSUM
    else ret DHTLIB_OK.

Definition read21 (b : Board) : M DHTLIB_ErrorCode := _read b.
Definition read22 (b : Board) : M DHTLIB_ErrorCode := _read b.
Definition read33 (b : Board) : M DHTLIB_ErrorCode := _read b.
Definition read44 (b : Board) : M DHTLIB_ErrorCode := _read b.

Definition getHumidity : M double := fun m => Val (humidity (dht m)) m.
Definition getTemperature : M double := get_temperature.
Definition getConnectedPin : M Z := fun m => Val (connected_pin (dht m)) m.

Definition setHumidity (value : double) : M unit := put_humidity value.
Definition setTemperature (value : double) : M unit := put_temperature value.
Definition setConnectedPin (pin : Z) : M unit := put_pin (uint8 pin).

Definition isConnected (b : Board) : M bool :=
  rv <- _readSensor b DHTLIB_DHT_WAKEUP ;;
  ret (code_eqb rv DHTLIB_OK).

Definition reset : M unit :=
  setHumidity (double_of_code DHTLIB_INVALID_VALUE) ;;;
  setTemperature (double_of_code DHTLIB_INVALID_VALUE).

(** ** Boards for the examples *)

(** Bit [k] of a frame given as a list of bytes, most significant bit of
    the first byte first. *)
Definition bit_of_frame (bytes : list Z) (k : nat) : bool :=
  Z.testbit (nth (k / 8) bytes 0) (7 - Z.of_nat (k mod 8)).

(** A sensor that answers every wait at once: the line is high at every
    even read and low at every odd one, so each busy-poll loop ends at its
    first test; bit [k] of the frame is sent as a pulse of 70 microseconds
    for a one and of 26 microseconds for a zero.  The clock rate is 16 MHz. *)
Definition sensor_board (bytes : list Z) : Board :=
  mkBoard 16000000
    (fun k => Nat.even k)
    (fun k => 100 * Z.of_nat (k / 2)
              + (if Nat.odd k then (if bit_of_frame bytes (k / 2) then 70 else 26) else 0)).

(** A line that stays low for ever. *)
Definition stuck_board : Board :=
  mkBoard 16000000 (fun _ => false) (fun k => Z.of_nat k).

(** A newly constructed driver bound to [pin], its buffer not yet written
    by any read, on a board on which nothing has happened. *)
Definition fresh (pin : Z) : Machine :=
  mkMachine (construct (mkFrame 255 255 255 255 255) pin) 0 0 [].

(** * Vocabulary of the statements *)

(** [wp c Q R m]: run from [m], the computation [c] neither leaves the
    buffer nor is cut off; it completes in a state satisfying [Q] or
    returns early in a state satisfying [R]. *)
Definition wp {A : Type} (c : M A)
  (Q : A -> Machine -> Prop) (R : DHTLIB_ErrorCode -> Machine -> Prop)
  (m : Machine) : Prop :=
  match c m with
  | Val a m' => Q a m'
  | Ret rv m' => R rv m'
  | OutOfBounds => False
  | OutOfFuel => False
  end.

(** Two states that differ at most in the number of register reads. *)
Definition only_polls (m m' : Machine) : Prop :=
  dht m' = dht m /\ ticks m' = ticks m /\ pinlog m' = pinlog m.

Definition frame_byte (f : Frame) (i : Z) : Z :=
  match frame_get f i with
  | Some v => v
  | None => 0
  end.

(** Bit [k] of the frame, counted as it is sent: bit [7 - k mod 8] of byte
    [k / 8]. *)
Definition frame_bit (f : Frame) (k : nat) : bool :=
  Z.testbit (frame_byte f (Z.of_nat (k / 8))) (7 - Z.of_nat (k mod 8)).

Definition is_byte (v : Z) : Prop := 0 <= v < 256.

Definition bytes_ok (f : Frame) : Prop :=
  is_byte (byte0 f) /\ is_byte (byte1 f) /\ is_byte (byte2 f) /\
  is_byte (byte3 f) /\ is_byte (byte4 f).

(** The mask and the index at which bit [j] is stored. *)
Definition bit_position (j : nat) : Z * Z :=
  (2 ^ (7 - Z.of_nat (j mod 8)), Z.of_nat (j / 8)).

(** The measured length of the [k]-th high pulse, for a bit loop entered
    after [t0] clock reads: the difference of two [micros()] values. *)
Definition pulse (b : Board) (t0 : nat) (k : nat) : Z :=
  uint32 (uint32 (clock b (t0 + 2 * k + 1)) - uint32 (clock b (t0 + 2 * k))).

Definition sent_bit (b : Board) (t0 : nat) (k : nat) : bool := 40 <? pulse b t0 k.

(** What no step of the acquisition touches: the two reading fields, the pin
    and (inside the loops) the log; the buffer holds bytes. *)
Record kept (m0 m : Machine) : Prop := mkKept {
  kept_humidity : humidity (dht m) = humidity (dht m0);
  kept_temperature : temperature (dht m) = temperature (dht m0);
  kept_pin : connected_pin (dht m) = connected_pin (dht m0);
  kept_log : pinlog m = pinlog m0;
  kept_bytes : bytes_ok (bits (dht m))
}.

(** The state of the bit loop when [j] bits have been read, [m0] being the
    state in which the loop was entered. *)
Record bits_inv (b : Board) (m0 : Machine) (j : nat) (m : Machine) : Prop := mkBitsInv {
  inv_kept : kept m0 m;
  inv_ticks : ticks m = (ticks m0 + 2 * j)%nat;
  inv_bits : forall k, (k < 40)%nat ->
      frame_bit (bits (dht m)) k = (k <? j)%nat && sent_bit b (ticks m0) k
}.

(** Every bit that is set in the frame [f] was sent as a long pulse of the
    attempt whose bit loop began after [t0] clock reads. *)
Definition fresh_bits (b : Board) (t0 : nat) (f : Frame) : Prop :=
  forall k, (k < 40)%nat -> frame_bit f k = true -> sent_bit b t0 k = true.

(** The pin writes and delays of the request, and those that release the
    line after the last bit. *)
Definition request_events (pin wakeupDelay : Z) : list Event :=
  [EvPinMode pin OUTPUT; EvDigitalWrite pin LOW; EvDelay wakeupDelay;
   EvDigitalWrite pin HIGH; EvDelayMicroseconds 40; EvPinMode pin INPUT].

Definition release_events (pin : Z) : list Event :=
  [EvPinMode pin OUTPUT; EvDigitalWrite pin HIGH].

(** The outcome [rv], [m'] of an acquisition started in [m]. *)
Definition sensor_post (b : Board) (wakeupDelay : Z) (m : Machine)
  (rv : DHTLIB_ErrorCode) (m' : Machine) : Prop :=
  humidity (dht m') = humidity (dht m) /\
  temperature (dht m') = temperature (dht m) /\
  connected_pin (dht m') = connected_pin (dht m) /\
  bytes_ok (bits (dht m')) /\
  fresh_bits b (ticks m) (bits (dht m')) /\
  ((rv = DHTLIB_OK /\
    pinlog m' = pinlog m ++ request_events (connected_pin (dht m)) wakeupDelay
                         ++ release_events (connected_pin (dht m)) /\
    ticks m' = (ticks m + 80)%nat /\
    forall k, (k < 40)%nat -> frame_bit (bits (dht m')) k = sent_bit b (ticks m) k)
   \/
   (rv = DHTLIB_ERROR_TIMEOUT /\
    pinlog m' = pinlog m ++ request_events (connected_pin (dht m)) wakeupDelay)).

(** The 16-bit big-endian value of two bytes. *)
Definition big_endian16 (h l : Z) : Z := 256 * h + l.

(** A byte with its top bit masked off. *)
Definition clear_top (v : Z) : Z := if Z.testbit v 7 then v - 128 else v.

(** The checksum of a frame: the sum of its first four bytes modulo 256. *)
Definition checksum (f : Frame) : Z :=
  (byte0 f + byte1 f + byte2 f + byte3 f) mod 256.

(** The values that [_read] computes from a frame. *)
Definition scaled_humidity (f : Frame) : double :=
  mul (of_Z (big_endian16 (byte0 f) (byte1 f))) tenth.

Definition scaled_temperature (f : Frame) : double :=
  let t := mul (of_Z (big_endian16 (clear_top (byte2 f)) (byte3 f))) tenth in
  if Z.testbit (byte2 f) 7 then opp t else t.

(** The object with its two reading fields replaced. *)
Definition with_reading (m : Machine) (h t : double) : Machine :=
  with_dht m (mkDht (bits (dht m)) h t (connected_pin (dht m))).

(** [P] holds of the [n] integers from [lo] on. *)
Fixpoint all_from (n : nat) (lo : Z) (P : Z -> bool) : bool :=
  match n with
  | O => true
  | S n' => P lo && all_from n' (lo + 1) P
  end.

(** The operations of the public interface. *)
Inductive Op : Type :=
| OpRead11 | OpRead21 | OpRead22 | OpRead33 | OpRead44
| OpGetHumidity | OpGetTemperature | OpGetConnectedPin
| OpSetHumidity (value : double) | OpSetTemperature (value : double)
| OpSetConnectedPin (pin : Z)
| OpIsConnected | OpReset.

(** The state in which a computation ends. *)
Definition final {A : Type} (r : Res A) : option Machine :=
  match r with
  | Val _ m => Some m
  | Ret _ m => Some m
  | OutOfBounds => None
  | OutOfFuel => None
  end.

Definition run (b : Board) (op : Op) (m : Machine) : option Machine :=
  match op with
  | OpRead11 => final (read11 b m)
  | OpRead21 => final (read21 b m)
  | OpRead22 => final (read22 b m)
  | OpRead33 => final (read33 b m)
  | OpRead44 => final (read44 b m)
  | OpGetHumidity => final (getHumidity m)
  | OpGetTemperature => final (getTemperature m)
  | OpGetConnectedPin => final (getConnectedPin m)
  | OpSetHumidity v => final (setHumidity v m)
  | OpSetTemperature v => final (setTemperature v m)
  | OpSetConnectedPin pin => final (setConnectedPin pin m)
  | OpIsConnected => final (isConnected b m)
  | OpReset => final (reset m)
  end.

Definition is_read_family (op : Op) : bool :=
  match op with
  | OpRead11 | OpRead21 | OpRead22 | OpRead33 | OpRead44 => true
  | _ => false
  end.

(** The operations that assign to [humidity] or [temperature]. *)
Definition writes_reading (op : Op) : bool :=
  match op with
  | OpRead11 | OpRead21 | OpRead22 | OpRead33 | OpRead44 => true
  | OpSetHumidity _ | OpSetTemperature _ | OpReset => true
  | _ => false
  end.

(** The state in which the acquisition of a read ends. *)
Definition acquired (b : Board) (wakeupDelay : Z) (m : Machine) : Machine :=
  match _readSensor b wakeupDelay m with
  | Val _ m' => m'
  | _ => m
  end.

(** ** Vocabulary of the further properties *)

(** The number of register reads a busy-poll loop started with counter [c]
    can make: counting down from 0 wraps to 65535 first. *)
Definition poll_budget (c : Z) : nat := Z.to_nat (if c =? 0 then 65536 else c).

Definition with_polls (m : Machine) (p : nat) : Machine :=
  mkMachine (dht m) p (ticks m) (pinlog m).

(** Among the [n] register reads from the [p]-th on, the first one that
    does not find the line at [level]. *)
Fixpoint first_change (b : Board) (level : bool) (p n : nat) : option nat :=
  match n with
  | O => None
  | S n' =>
      if Bool.eqb (line b p) level
      then option_map S (first_change b level (S p) n')
      else Some O
  end.

(** [wlp c Q R m]: if [c], run from [m], completes, it does so in a state
    satisfying [Q]; if it returns early, in a state satisfying [R]. *)
Definition wlp {A : Type} (c : M A)
  (Q : A -> Machine -> Prop) (R : DHTLIB_ErrorCode -> Machine -> Prop)
  (m : Machine) : Prop :=
  match c m with
  | Val a m' => Q a m'
  | Ret rv m' => R rv m'
  | OutOfBounds => True
  | OutOfFuel => True
  end.

(** From [m] to [m'], between [plo] and [phi] register reads and between
    [tlo] and [thi] clock reads were made. *)
Definition spent (m m' : Machine) (plo phi tlo thi : nat) : Prop :=
  (polls m + plo <= polls m' <= polls m + phi)%nat /\
  (ticks m + tlo <= ticks m' <= ticks m + thi)%nat.

(** The pin an event addresses; delays address none. *)
Definition event_pin (e : Event) : option Z :=
  match e with
  | EvPinMode pin _ => Some pin
  | EvDigitalWrite pin _ => Some pin
  | EvDelay _ => None
  | EvDelayMicroseconds _ => None
  end.

Definition on_pin (pin : Z) (e : Event) : Prop :=
  event_pin e = Some pin \/ event_pin e = None.

(** The mode in which the events of [log] leave [pin], [None] when they do
    not set it. *)
Definition last_mode (pin : Z) (log : list Event) : option PinMode :=
  fold_left (fun acc e =>
               match e with
               | EvPinMode p md => if p =? pin then Some md else acc
               | _ => acc
               end) log None.

(** The level last written to [pin] by the events of [log]. *)
Definition last_level (pin : Z) (log : list Event) : option Level :=
  fold_left (fun acc e =>
               match e with
               | EvDigitalWrite p l => if p =? pin then Some l else acc
               | _ => acc
               end) log None.

(** * The sketch (test_lcd.ino) *)

(** The sketch runs on a board whose millisecond clock answers the k-th
    call of [millis()] with [millis k]. *)
Record Host : Type := mkHost {
  board : Board;
  millis : nat -> Z
}.

(** What the sketch sends to the serial port and to the LCD. *)
Inductive Output : Type :=
| SerialBegin (baud : Z)
| SerialPrint (s : String.string)
| SerialPrintln (s : String.string)
| SerialPrintlnDouble (v : double)
| SerialPrintlnInt (v : Z)
| LcdBegin (cols rows : Z)
| LcdClear
| LcdSetCursor (col row : Z)
| LcdPrint (s : String.string)
| LcdPrintChar (c : Z)
| LcdPrintDouble (v : double) (digits : Z)
| LcdDisplay
| LcdNoDisplay.

(** The global object [DHT] with the board it drives, the number of calls
    of [millis()] made so far, the two static variables of [loop] and the
    output sent so far. *)
Record Sketch : Type := mkSketch {
  DHT : Machine;
  millis_calls : nat;
  messageCount : Z;
  showingMessage : bool;
  out : list Output
}.

(** Computations of the sketch; [None] when a wait was cut off. *)
Definition SM (A : Type) : Type := Sketch -> option (A * Sketch).

Definition sret {A : Type} (a : A) : SM A := fun s => Some (a, s).

Definition sbind {A B : Type} (c : SM A) (k : A -> SM B) : SM B :=
  fun s =>
    match c s with
    | Some (a, s') => k a s'
    | None => None
    end.

Notation "x <~ c ;; k" := (sbind c (fun x => k))
  (at level 61, c at next level, right associativity).
Notation "c ;;~ k" := (sbind c (fun _ => k))
  (at level 61, right associativity).

(** A member function of [DHT], called from the sketch. *)
Definition on_DHT {A : Type} (c : M A) : SM A :=
  fun s =>
    match c (DHT s) with
    | Val a m => Some (a, mkSketch m (millis_calls s) (messageCount s) (showingMessage s) (out s))
    | _ => None
    end.

Definition send (o : Output) : SM unit :=
  fun s => Some (tt, mkSketch (DHT s) (millis_calls s) (messageCount s) (showingMessage s)
                              (out s ++ [o])).

(** [millis()], an [unsigned long] of 32 bits. *)
Definition read_millis (h : Host) : SM Z :=
  fun s => Some (uint32 (millis h (millis_calls s)),
                 mkSketch (DHT s) (S (millis_calls s)) (messageCount s) (showingMessage s) (out s)).

Definition get_messageCount : SM Z := fun s => Some (messageCount s, s).

Definition set_messageCount (v : Z) : SM unit :=
  fun s => Some (tt, mkSketch (DHT s) (millis_calls s) v (showingMessage s) (out s)).

Definition get_showingMessage : SM bool := fun s => Some (showingMessage s, s).

Definition set_showingMessage (v : bool) : SM unit :=
  fun s => Some (tt, mkSketch (DHT s) (millis_calls s) (messageCount s) v (out s)).

(** A value brought back into [int16_t]. *)
Definition int16 (n : Z) : Z := (n + 32768) mod 65536 - 32768.

Definition DHT11_PIN : Z := 7.
Definition NB_MSG_COUNT : Z := 2.

(** [while (millis() < deadline) {}], cut off after [fuel] tests. *)
Fixpoint wait_loop (h : Host) (fuel : nat) (deadline : Z) : SM unit :=
  match fuel with
  | O => fun _ => None
  | S fuel' =>
      now <~ read_millis h ;;
      if now <? deadline then wait_loop h fuel' deadline else sret tt
  end.

(** [void waitUntil(uint32_t w)]: the deadline [t + w] is a 32-bit sum. *)
Definition waitUntil (h : Host) (fuel : nat) (w : Z) : SM unit :=
  t <~ read_millis h ;;
  wait_loop h fuel (uint32 (t + uint32 w)).

Definition welcome : SM unit :=
  send (SerialPrintln "Bienvenue au GPA788 OC/IoT"%string) ;;~
  send (LcdSetCursor 0 0) ;;~
  send (LcdPrint "Bienvenue au"%string) ;;~
  send (LcdSetCursor 0 1) ;;~
  send (LcdPrint "GPA788 OC/IoT"%string).

Definition showTemp (h : Host) : SM unit :=
  chk <~ on_DHT (read11 (board h)) ;;
  if code_eqb chk DHTLIB_OK then
    send (SerialPrint "Temperature = "%string) ;;~
    t <~ on_DHT getTemperature ;;
    send (SerialPrintlnDouble t) ;;~
    send (SerialPrint "Humidity = "%string) ;;~
    hm <~ on_DHT getHumidity ;;
    send (SerialPrintlnDouble hm) ;;~
    send (LcdSetCursor 0 0) ;;~ send (LcdPrint "Temp.: "%string) ;;~
    t' <~ on_DHT getTemperature ;;
    send (LcdPrintDouble t' 0) ;;~ send (LcdPrintChar 223) ;;~ send (LcdPrint "C"%string) ;;~
    send (LcdSetCursor 0 1) ;;~ send (LcdPrint "Humidity.: "%string) ;;~
    hm' <~ on_DHT getHumidity ;;
    send (LcdPrintDouble hm' 0) ;;~ send (LcdPrint "%"%string)
  else
    send (SerialPrintln "DHT11: Erreur"%string) ;;~
    send (SerialPrint "DHT11:"%string) ;;~
    send (SerialPrintlnInt (code_value chk)) ;;~
    send (LcdSetCursor 0 0) ;;~ send (LcdPrint "DHT11: Erreur"%string) ;;~
    send (LcdSetCursor 0 1) ;;~ send (LcdPrint "DHT11: code "%string) ;;~
    send (LcdPrintDouble (double_of_code chk) 0).

Definition setup (h : Host) (fuel : nat) : SM unit :=
  send (SerialBegin 9600) ;;~
  waitUntil h fuel 2000 ;;~
  on_DHT (setConnectedPin DHT11_PIN) ;;~
  send (LcdBegin 16 2) ;;~
  send LcdClear.

Definition loop (h : Host) (fuel : nat) : SM unit :=
  mc <~ get_messageCount ;;
  (if mc =? 0 then
     send LcdClear ;;~
     sm <~ get_showingMessage ;;
     if sm then showTemp h else welcome
   else sret tt) ;;~
  (* if (messageCount++ > NB_MSG_COUNT) *)
  old <~ get_messageCount ;;
  set_messageCount (int16 (old + 1)) ;;~
  (if NB_MSG_COUNT <? old then
     set_messageCount 0 ;;~
     sm <~ get_showingMessage ;;
     set_showingMessage (negb sm)
   else sret tt) ;;~
  send LcdDisplay ;;~
  waitUntil h fuel 2000 ;;~
  send LcdNoDisplay ;;~
  waitUntil h fuel 1000.

(** [n] calls of [loop] in a row. *)
Fixpoint loops (h : Host) (fuel : nat) (n : nat) : SM unit :=
  match n with
  | O => sret tt
  | S n' => loop h fuel ;;~ loops h fuel n'
  end.

(** The sketch when it starts: [DHT] is a global object, zero-initialised
    and then constructed; the static variables of [loop] have their initial
    values. *)
Definition boot : Sketch :=
  mkSketch (mkMachine (construct zero_frame 0) 0 0 []) 0 0 true [].

(** A host for the examples: the sensor of [sensor_board], and a clock read
    once per second. *)
Definition demo_host : Host :=
  mkHost (sensor_board [45; 0; 23; 0; 68]) (fun k => 1000 * Z.of_nat k).

(** The number of wake-up delays of [ms] milliseconds in a log. *)
Definition wakeups (ms : Z) (log : list Event) : nat :=
  length (filter (fun e => match e with EvDelay d => d =? ms | _ => false end) log).


Definition with_millis_calls (s : Sketch) (n : nat) : Sketch :=
  mkSketch (DHT s) n (messageCount s) (showingMessage s) (out s).

(** What [showTemp] sends after a successful read, after a failed one, and
    what [welcome] sends. *)
Definition reading_screen (t hm : double) : list Output :=
  [SerialPrint "Temperature = "%string; SerialPrintlnDouble t;
   SerialPrint "Humidity = "%string; SerialPrintlnDouble hm;
   LcdSetCursor 0 0; LcdPrint "Temp.: "%string; LcdPrintDouble t 0;
   LcdPrintChar 223; LcdPrint "C"%string;
   LcdSetCursor 0 1; LcdPrint "Humidity.: "%string; LcdPrintDouble hm 0;
   LcdPrint "%"%string].

Definition error_screen (code : Z) : list Output :=
  [SerialPrintln "DHT11: Erreur"%string; SerialPrint "DHT11:"%string;
   SerialPrintlnInt code;
   LcdSetCursor 0 0; LcdPrint "DHT11: Erreur"%string;
   LcdSetCursor 0 1; LcdPrint "DHT11: code "%string;
   LcdPrintDouble (of_Z code) 0].

Definition welcome_screen : list Output :=
  [SerialPrintln "Bienvenue au GPA788 OC/IoT"%string;
   LcdSetCursor 0 0; LcdPrint "Bienvenue au"%string;
   LcdSetCursor 0 1; LcdPrint "GPA788 OC/IoT"%string].

(** The output events that carry a reading. *)
Definition shows_value (o : Output) : bool :=
  match o with
  | SerialPrintlnDouble _ => true
  | LcdPrintDouble _ _ => true
  | _ => false
  end.

(** A host whose millisecond clock is about to wrap around. *)
Definition late_host : Host :=
  mkHost stuck_board (fun k => 4294967000 + Z.of_nat k).

(** The three parts of [loop]: the content, shown when the counter is 0;
    the counter and the flag; the blinking. *)
Definition loop_content (h : Host) : SM unit :=
  mc <~ get_messageCount ;;
  if mc =? 0 then
    send LcdClear ;;~
    sm <~ get_showingMessage ;;
    if sm then showTemp h else welcome
  else sret tt.

Definition loop_count : SM unit :=
  old <~ get_messageCount ;;
  set_messageCount (int16 (old + 1)) ;;~
  (if NB_MSG_COUNT <? old then
     set_messageCount 0 ;;~
     sm <~ get_showingMessage ;;
     set_showingMessage (negb sm)
   else sret tt).

Definition loop_blink (h : Host) (fuel : nat) : SM unit :=
  send LcdDisplay ;;~
  waitUntil h fuel 2000 ;;~
  send LcdNoDisplay ;;~
  waitUntil h fuel 1000.

(** What one call of [loop] sends before it blinks, and the state of [DHT]
    after it. *)
Definition content_of (h : Host) (s : Sketch) (m1 : Machine) (o1 : list Output) : Prop :=
  (messageCount s <> 0 /\ m1 = DHT s /\ o1 = [])
  \/
  (messageCount s = 0 /\ showingMessage s = true /\
   exists chk,
     read11 (board h) (DHT s) = Val chk m1 /\
     o1 = LcdClear :: (if code_eqb chk DHTLIB_OK
                       then reading_screen (temperature (dht m1)) (humidity (dht m1))
                       else error_screen (code_value chk)))
  \/
  (messageCount s = 0 /\ showingMessage s = false /\
   m1 = DHT s /\ o1 = LcdClear :: welcome_screen).

(** The state in which a computation of the sketch ends, if it does. *)
Definition after {A : Type} (c : SM A) (s : Sketch) : Sketch :=
  match c s with
  | Some (_, s') => s'
  | None => s
  end.

(** * Floating-point constants *)

Lemma tenth_nearest : div (of_Z 1) (of_Z 10) = tenth.
Proof. vm_compute. reflexivity. Qed.

Lemma literals :
  of_Z 45 = lit_45 /\ of_Z 23 = lit_23 /\ div (of_Z 1) (of_Z 2) = half /\
  mul (of_Z 5) tenth = half.
Proof. vm_compute. repeat split. Qed.

(** * Reasoning about the monad *)

Lemma wp_bind {A B : Type} (c : M A) (k : A -> M B) Q R m :
  wp c (fun a m' => wp (k a) Q R m') R m -> wp (bind c k) Q R m.
Proof.
  unfold wp, bind. destruct (c m); auto.
Qed.

Lemma wp_conseq {A : Type} (c : M A) (Q Q' : A -> Machine -> Prop) R R' m :
  wp c Q R m ->
  (forall a m', Q a m' -> Q' a m') ->
  (forall rv m', R rv m' -> R' rv m') ->
  wp c Q' R' m.
Proof.
  unfold wp. destruct (c m); auto.
Qed.

Lemma wp_ret {A : Type} (a : A) (Q : A -> Machine -> Prop) R m :
  Q a m -> wp (ret a) Q R m.
Proof. auto. Qed.

Lemma wp_return {A : Type} rv (Q : A -> Machine -> Prop) (R : DHTLIB_ErrorCode -> Machine -> Prop) m :
  R rv m -> wp (return_ rv) Q R m.
Proof. auto. Qed.

Lemma wp_call body (Q : DHTLIB_ErrorCode -> Machine -> Prop) R m :
  wp body Q Q m -> wp (call body) Q R m.
Proof.
  unfold wp, call. destruct (body m); auto.
Qed.

(** What a completed [wp] says about the result itself. *)
Lemma wp_val {A : Type} (c : M A) (Q : A -> Machine -> Prop) m :
  wp c Q (fun _ _ => False) m -> exists a m', c m = Val a m' /\ Q a m'.
Proof.
  unfold wp. destruct (c m) as [a m'| | |]; try tauto. eauto.
Qed.

Lemma uint16_pred c : 1 <= c <= 65536 -> uint16 (c - 1) = c - 1.
Proof. intros H. unfold uint16. apply Z.mod_small. lia. Qed.

(** A countdown from [c] ends within [c] iterations. *)
Lemma wp_busy_poll_count b level (Q : unit -> Machine -> Prop) R :
  forall fuel c m,
    1 <= c <= 65536 -> c <= Z.of_nat fuel ->
    (forall m', only_polls m m' -> Q tt m') ->
    (forall m', only_polls m m' -> R DHTLIB_ERROR_TIMEOUT m') ->
    wp (busy_poll b level fuel c) Q R m.
Proof.
  induction fuel as [|fuel IH]; intros c m Hc Hf HQ HR.
  - simpl in Hf. lia.
  - cbn [busy_poll]. apply wp_bind. unfold wp at 1, read_line.
    set (m1 := mkMachine (dht m) (S (polls m)) (ticks m) (pinlog m)).
    assert (H1 : only_polls m m1) by (repeat split).
    destruct (Bool.eqb (line b (polls m)) level).
    + rewrite uint16_pred by lia.
      destruct (c - 1 =? 0) eqn:E.
      * apply wp_return. auto.
      * apply Z.eqb_neq in E. apply IH; try lia.
        -- intros m' H. apply HQ. exact H.
        -- intros m' H. apply HR. exact H.
    + apply wp_ret. auto.
Qed.

Lemma poll_fuel_succ : poll_fuel = S (Z.to_nat 65535).
Proof. unfold poll_fuel. rewrite <- Z2Nat.inj_succ by lia. reflexivity. Qed.

(** Every busy-poll loop of the driver ends: with its transition seen, or
    with a time-out; it changes nothing but the number of register reads. *)
Lemma wp_busy_poll b level c (Q : unit -> Machine -> Prop) R m :
  0 <= c < 65536 ->
  (forall m', only_polls m m' -> Q tt m') ->
  (forall m', only_polls m m' -> R DHTLIB_ERROR_TIMEOUT m') ->
  wp (busy_poll b level poll_fuel c) Q R m.
Proof.
  intros Hc HQ HR.
  destruct (Z.eq_dec c 0) as [->|Hnz].
  - rewrite poll_fuel_succ. cbn [busy_poll]. apply wp_bind. unfold wp at 1, read_line.
    set (m1 := mkMachine (dht m) (S (polls m)) (ticks m) (pinlog m)).
    assert (H1 : only_polls m m1) by (repeat split).
    destruct (Bool.eqb (line b (polls m)) level).
    + change (uint16 (0 - 1)) with 65535. change (65535 =? 0) with false. cbv iota.
      apply wp_busy_poll_count; try lia.
      * intros m' H. apply HQ. exact H.
      * intros m' H. apply HR. exact H.
    + apply wp_ret. auto.
  - apply wp_busy_poll_count; auto; try lia.
    unfold poll_fuel. lia.
Qed.

Lemma DHTLIB_TIMEOUT_range b : 0 <= DHTLIB_TIMEOUT b < 65536.
Proof. unfold DHTLIB_TIMEOUT, uint16. apply Z.mod_pos_bound. lia. Qed.

(** A loop that waits for a transition which never comes counts down to
    its time-out. *)
Lemma wp_busy_poll_stuck_count b level (Q : unit -> Machine -> Prop) R :
  (forall k, line b k = level) ->
  forall fuel c m,
    1 <= c <= 65536 -> c <= Z.of_nat fuel ->
    (forall m', only_polls m m' -> R DHTLIB_ERROR_TIMEOUT m') ->
    wp (busy_poll b level fuel c) Q R m.
Proof.
  intros Hline. induction fuel as [|fuel IH]; intros c m Hc Hf HR.
  - simpl in Hf. lia.
  - cbn [busy_poll]. apply wp_bind. unfold wp at 1, read_line.
    rewrite Hline, eqb_reflx, uint16_pred by lia.
    destruct (c - 1 =? 0) eqn:E.
    + apply wp_return. apply HR. repeat split.
    + apply Z.eqb_neq in E. apply IH; try lia.
      intros m' H. apply HR. exact H.
Qed.

Lemma wp_busy_poll_stuck b level c (Q : unit -> Machine -> Prop) R m :
  (forall k, line b k = level) ->
  0 <= c < 65536 ->
  (forall m', only_polls m m' -> R DHTLIB_ERROR_TIMEOUT m') ->
  wp (busy_poll b level poll_fuel c) Q R m.
Proof.
  intros Hline Hc HR.
  destruct (Z.eq_dec c 0) as [->|Hnz].
  - rewrite poll_fuel_succ. cbn [busy_poll]. apply wp_bind. unfold wp at 1, read_line.
    rewrite Hline, eqb_reflx.
    change (uint16 (0 - 1)) with 65535. change (65535 =? 0) with false. cbv iota.
    apply wp_busy_poll_stuck_count; try lia; [exact Hline|].
    intros m' H. apply HR. exact H.
  - apply wp_busy_poll_stuck_count; auto; try lia.
    unfold poll_fuel. lia.
Qed.

(** ** The frame *)

Lemma div8_cases (k : nat) :
  (k < 40)%nat ->
  (k / 8 = 0 \/ k / 8 = 1 \/ k / 8 = 2 \/ k / 8 = 3 \/ k / 8 = 4)%nat.
Proof.
  intros H. pose proof (Nat.div_mod_eq k 8).
  pose proof (Nat.mod_upper_bound k 8). lia.
Qed.

Lemma mod8_cases (k : nat) :
  (k mod 8 = 0 \/ k mod 8 = 1 \/ k mod 8 = 2 \/ k mod 8 = 3 \/
   k mod 8 = 4 \/ k mod 8 = 5 \/ k mod 8 = 6 \/ k mod 8 = 7)%nat.
Proof.
  pose proof (Nat.mod_upper_bound k 8). lia.
Qed.

Lemma next_bit_position (j : nat) :
  (j < 40)%nat -> next_bit (bit_position j) = bit_position (S j).
Proof.
  intros Hj. unfold next_bit, bit_position. cbn [fst snd].
  pose proof (Nat.div_mod_eq j 8) as Ej.
  pose proof (Nat.div_mod_eq (S j) 8) as Es.
  pose proof (Nat.mod_upper_bound (S j) 8) as Bs.
  destruct (div8_cases j Hj) as [Q|[Q|[Q|[Q|Q]]]];
    destruct (mod8_cases j) as [P|[P|[P|[P|[P|[P|[P|P]]]]]]];
    rewrite Q, P in *;
    match goal with
    | |- context [Z.shiftr (2 ^ (7 - Z.of_nat 7)) 1] =>
        assert (S j mod 8 = 0 /\ S j / 8 = S (j / 8))%nat as [E1 E2] by lia;
        rewrite E1, E2, Q; reflexivity
    | _ =>
        assert (S j mod 8 = S (j mod 8) /\ S j / 8 = j / 8)%nat as [E1 E2] by lia;
        rewrite E1, E2, Q, P; reflexivity
    end.
Qed.

Lemma is_byte_lor_mask v (p : nat) :
  is_byte v -> (p < 8)%nat -> is_byte (Z.lor v (2 ^ (7 - Z.of_nat p))).
Proof.
  unfold is_byte. intros Hv Hp.
  assert (Hm : 0 < 2 ^ (7 - Z.of_nat p)) by (apply Z.pow_pos_nonneg; lia).
  assert (Hm8 : 2 ^ (7 - Z.of_nat p) < 2 ^ 8) by (apply Z.pow_lt_mono_r; lia).
  split.
  - apply Z.lor_nonneg. lia.
  - destruct (Z.eq_dec v 0) as [->|Hnz].
    + rewrite Z.lor_0_l. exact Hm8.
    + assert (Hpos : 0 < Z.lor v (2 ^ (7 - Z.of_nat p))).
      { assert (0 <= Z.lor v (2 ^ (7 - Z.of_nat p))) by (apply Z.lor_nonneg; lia).
        assert (Z.lor v (2 ^ (7 - Z.of_nat p)) <> 0).
        { intros E. apply Z.lor_eq_0_iff in E. lia. }
        lia. }
      change 256 with (2 ^ 8).
      apply Z.log2_lt_pow2; [exact Hpos|].
      rewrite Z.log2_lor by lia.
      apply Z.max_lub_lt.
      * apply Z.log2_lt_pow2; lia.
      * apply Z.log2_lt_pow2; lia.
Qed.

(** [bits[q] |= mask] for the mask of bit [p] of byte [q]: the access is
    inside the buffer, and it sets bit [8 q + p] of the frame and no other. *)
Lemma frame_or_bit (f : Frame) (q p : nat) :
  (q < 5)%nat -> (p < 8)%nat ->
  exists f',
    frame_get f (Z.of_nat q) = Some (frame_byte f (Z.of_nat q)) /\
    frame_set f (Z.of_nat q) (Z.lor (frame_byte f (Z.of_nat q)) (2 ^ (7 - Z.of_nat p))) = Some f' /\
    (forall k, (k < 40)%nat -> frame_bit f' k = frame_bit f k || (k =? 8 * q + p)%nat) /\
    (bytes_ok f -> bytes_ok f').
Proof.
  intros Hq Hp.
  assert (Hbit : forall v k, (k < 40)%nat -> (k / 8 = q)%nat ->
            Z.testbit (Z.lor v (2 ^ (7 - Z.of_nat p))) (7 - Z.of_nat (k mod 8))
            = Z.testbit v (7 - Z.of_nat (k mod 8)) || (k =? 8 * q + p)%nat).
  { intros v k Hk Hkq. rewrite Z.lor_spec. f_equal.
    pose proof (Nat.div_mod_eq k 8). pose proof (Nat.mod_upper_bound k 8).
    rewrite Z.pow2_bits_eqb by lia.
    destruct (Nat.eqb_spec k (8 * q + p)); [apply Z.eqb_eq|apply Z.eqb_neq]; lia. }
  assert (Hother : forall k q', (k / 8 = q')%nat -> q' <> q -> (k =? 8 * q + p)%nat = false).
  { intros k q' Hk Hne. apply Nat.eqb_neq.
    pose proof (Nat.div_mod_eq k 8). pose proof (Nat.mod_upper_bound k 8). lia. }
  destruct f as [v0 v1 v2 v3 v4].
  destruct q as [|[|[|[|[|q]]]]]; try lia; cbn [frame_get frame_set frame_byte Z.of_nat Pos.of_succ_nat Pos.succ byte0 byte1 byte2 byte3 byte4];
    (eexists; split; [reflexivity|split; [reflexivity|split;
      [ intros k Hk
      | unfold bytes_ok; cbn [byte0 byte1 byte2 byte3 byte4];
        intros (B0 & B1 & B2 & B3 & B4);
        pose proof (is_byte_lor_mask _ p B0 Hp); pose proof (is_byte_lor_mask _ p B1 Hp);
        pose proof (is_byte_lor_mask _ p B2 Hp); pose proof (is_byte_lor_mask _ p B3 Hp);
        pose proof (is_byte_lor_mask _ p B4 Hp); tauto ]]]).
  all: unfold frame_bit;
    destruct (div8_cases k Hk) as [Q|[Q|[Q|[Q|Q]]]]; rewrite Q;
    cbn [frame_get frame_byte Z.of_nat Pos.of_succ_nat Pos.succ byte0 byte1 byte2 byte3 byte4];
    first [ apply Hbit; assumption
          | rewrite (Hother k _ Q) by lia; rewrite orb_false_r; reflexivity ].
Qed.

(** ** The bit loop *)

Lemma kept_only_polls m0 m m' : kept m0 m -> only_polls m m' -> kept m0 m'.
Proof.
  intros [H1 H2 H3 H4 H5] (E & _ & L). split; rewrite ?E, ?L; assumption.
Qed.

Lemma bits_inv_only_polls b m0 j m m' :
  bits_inv b m0 j m -> only_polls m m' -> bits_inv b m0 j m'.
Proof.
  intros [K T B] H. pose proof H as (E & Tk & L). split.
  - eapply kept_only_polls; eauto.
  - congruence.
  - rewrite E. exact B.
Qed.

Lemma bits_inv_fresh b m0 j m :
  bits_inv b m0 j m -> fresh_bits b (ticks m0) (bits (dht m)).
Proof.
  intros [_ _ B] k Hk E. rewrite (B k Hk) in E.
  apply andb_true_iff in E. apply E.
Qed.

Lemma wp_micros b (Q : Z -> Machine -> Prop) R m :
  Q (uint32 (clock b (ticks m))) (mkMachine (dht m) (polls m) (S (ticks m)) (pinlog m)) ->
  wp (micros b) Q R m.
Proof. auto. Qed.

Lemma wp_read_bits b m0 :
  forall i j m,
    (i + j = 40)%nat ->
    bits_inv b m0 j m ->
    wp (read_bits b i (bit_position j))
       (fun _ m' => bits_inv b m0 40 m')
       (fun rv m' => rv = DHTLIB_ERROR_TIMEOUT /\ kept m0 m' /\
                     fresh_bits b (ticks m0) (bits (dht m')))
       m.
Proof.
  induction i as [|i IH]; intros j m Hij Hinv.
  - cbn [read_bits]. apply wp_ret. replace 40%nat with j by lia. exact Hinv.
  - cbn [read_bits].
    apply wp_bind, wp_busy_poll; [apply DHTLIB_TIMEOUT_range| |];
      intros m1 H1; pose proof (bits_inv_only_polls _ _ _ _ _ Hinv H1) as Hinv1;
      [|split; [reflexivity|split; [apply Hinv1|apply (bits_inv_fresh _ _ _ _ Hinv1)]]].
    apply wp_bind, wp_micros.
    set (m2 := mkMachine (dht m1) (polls m1) (S (ticks m1)) (pinlog m1)).
    apply wp_bind, wp_busy_poll; [apply DHTLIB_TIMEOUT_range| |];
      intros m3 H3; pose proof (bits_inv_fresh _ _ _ _ Hinv1) as F1;
      destruct H3 as (E3 & T3 & L3); cbn [m2 dht ticks pinlog] in E3, T3, L3;
      destruct Hinv1 as [K1 T1 B1];
      [|split; [reflexivity|split;
          [destruct K1; split; rewrite ?E3, ?L3; assumption|rewrite E3; exact F1]]].
    apply wp_bind, wp_micros.
    set (m4 := mkMachine (dht m3) (polls m3) (S (ticks m3)) (pinlog m3)).
    assert (Hj : (j < 40)%nat) by lia.
    assert (Hsent : (40 <? uint32 (uint32 (clock b (ticks m3)) - uint32 (clock b (ticks m1))))
                    = sent_bit b (ticks m0) j).
    { unfold sent_bit, pulse. rewrite T3, T1.
      replace (S (ticks m0 + 2 * j)) with (ticks m0 + 2 * j + 1)%nat by lia. reflexivity. }
    rewrite Hsent.
    assert (Hpos : (j / 8 < 5)%nat /\ (j mod 8 < 8)%nat /\ (8 * (j / 8) + j mod 8 = j)%nat).
    { pose proof (Nat.div_mod_eq j 8). pose proof (Nat.mod_upper_bound j 8). lia. }
    destruct Hpos as (Hq & Hp & Hqp).
    destruct (frame_or_bit (bits (dht m3)) (j / 8) (j mod 8) Hq Hp) as (f' & Hget & Hset & Hbits & Hrange).
    apply wp_bind.
    assert (Hnext : forall m5, bits_inv b m0 (S j) m5 ->
              wp (read_bits b i (next_bit (bit_position j)))
                 (fun _ m' => bits_inv b m0 40 m')
                 (fun rv m' => rv = DHTLIB_ERROR_TIMEOUT /\ kept m0 m' /\
                               fresh_bits b (ticks m0) (bits (dht m'))) m5).
    { intros m5 H5. rewrite next_bit_position by exact Hj. apply IH; [lia|exact H5]. }
    destruct (sent_bit b (ticks m0) j) eqn:Hs.
    + apply wp_bind. unfold wp at 1, load_bits, bit_position. cbn [snd fst].
      change (dht m4) with (dht m3).
      rewrite Hget. unfold wp at 1, store_bits. change (dht m4) with (dht m3). rewrite Hset.
      apply Hnext. unfold with_bits, with_dht, m4. split.
      * destruct K1. split; cbn [dht bits humidity temperature connected_pin pinlog];
          rewrite ?E3, ?L3; try assumption.
        apply Hrange. rewrite E3. assumption.
      * cbn [ticks]. rewrite T3, T1. lia.
      * intros k Hk. cbn [dht bits]. rewrite (Hbits k Hk), Hqp, E3, (B1 k Hk).
        destruct (Nat.eqb_spec k j) as [->|Hne].
        -- rewrite Hs. replace (j <? S j)%nat with true by (symmetry; apply Nat.ltb_lt; lia).
           rewrite orb_true_r. reflexivity.
        -- rewrite orb_false_r. f_equal.
           destruct (Nat.ltb_spec k j), (Nat.ltb_spec k (S j)); try reflexivity; lia.
    + apply wp_ret. apply Hnext. unfold m4. split.
      * destruct K1. split; cbn [dht pinlog]; rewrite ?E3, ?L3; assumption.
      * cbn [ticks]. rewrite T3, T1. lia.
      * intros k Hk. cbn [dht]. rewrite E3, (B1 k Hk).
        destruct (Nat.eqb_spec k j) as [->|Hne].
        -- rewrite Hs, !andb_false_r. reflexivity.
        -- f_equal. destruct (Nat.ltb_spec k j), (Nat.ltb_spec k (S j)); try reflexivity; lia.
Qed.

(** ** The acquisition as a whole *)

Lemma wp_emit e (Q : unit -> Machine -> Prop) R m :
  Q tt (mkMachine (dht m) (polls m) (ticks m) (pinlog m ++ [e])) -> wp (emit e) Q R m.
Proof. auto. Qed.

Lemma clear_bits_all m : clear_bits 5 0 m = Val tt (with_bits m zero_frame).
Proof. reflexivity. Qed.

Lemma bytes_ok_zero : bytes_ok zero_frame.
Proof. unfold bytes_ok, is_byte. cbn. lia. Qed.

Lemma frame_bit_zero k : (k < 40)%nat -> frame_bit zero_frame k = false.
Proof.
  intros Hk. unfold frame_bit.
  destruct (div8_cases k Hk) as [Q|[Q|[Q|[Q|Q]]]]; rewrite Q; apply Z.bits_0.
Qed.

Lemma fresh_bits_zero b t0 : fresh_bits b t0 zero_frame.
Proof.
  intros k Hk E. rewrite frame_bit_zero in E by exact Hk. discriminate.
Qed.

Lemma _readSensor_spec b wakeupDelay m :
  exists rv m', _readSensor b wakeupDelay m = Val rv m' /\ sensor_post b wakeupDelay m rv m'.
Proof.
  apply wp_val. unfold _readSensor. apply wp_call.
  apply wp_bind. unfold wp at 1. rewrite clear_bits_all.
  apply wp_bind. unfold wp at 1, get_pin.
  set (pin := connected_pin (dht (with_bits m zero_frame))).
  do 6 (apply wp_bind, wp_emit).
  match goal with |- wp _ _ _ ?s => set (m1 := s) end.
  assert (K1 : kept m1 m1) by (split; try reflexivity; apply bytes_ok_zero).
  assert (Hpost : forall rv m',
             rv = DHTLIB_ERROR_TIMEOUT /\ kept m1 m' /\ fresh_bits b (ticks m) (bits (dht m')) ->
             sensor_post b wakeupDelay m rv m').
  { intros rv m' (-> & [H1 H2 H3 H4 H5] & H6). unfold sensor_post.
    rewrite H1, H2, H3, H4.
    split; [reflexivity|split; [reflexivity|split; [reflexivity|split; [assumption|split; [assumption|]]]]].
    right. split; [reflexivity|].
    cbn. rewrite <- !app_assoc. reflexivity. }
  apply wp_bind, wp_busy_poll; [apply DHTLIB_TIMEOUT_range| |];
    intros m2 H2; pose proof (kept_only_polls _ _ _ K1 H2) as K2;
    [|apply Hpost; split; [reflexivity|split; [exact K2|]];
      destruct H2 as (E2 & _); rewrite E2; apply fresh_bits_zero].
  apply wp_bind, wp_busy_poll; [apply DHTLIB_TIMEOUT_range| |];
    intros m3 H3; pose proof (kept_only_polls _ _ _ K2 H3) as K3;
    [|apply Hpost; split; [reflexivity|split; [exact K3|]];
      destruct H3 as (E3 & _); destruct H2 as (E2 & _); rewrite E3, E2; apply fresh_bits_zero].
  apply wp_bind.
  assert (I3 : bits_inv b m3 0 m3).
  { split.
    - destruct K3 as [? ? ? ? B]. split; try reflexivity. exact B.
    - lia.
    - intros k Hk. destruct H3 as (E3 & _). destruct H2 as (E2 & _).
      rewrite E3, E2. cbn. apply frame_bit_zero, Hk. }
  assert (T30 : ticks m3 = ticks m).
  { destruct H3 as (_ & T3 & _). destruct H2 as (_ & T2 & _). rewrite T3, T2. reflexivity. }
  eapply wp_conseq; [exact (wp_read_bits b m3 40 0 m3 eq_refl I3)| |].
  - intros u m4 I4. cbv beta in I4 |- *. pose proof (bits_inv_fresh _ _ _ _ I4) as F4.
    destruct I4 as [K4 T4 B4].
    do 2 (apply wp_bind, wp_emit). apply wp_ret.
    destruct K4 as [G1 G2 G3 G4 G5]. destruct K3 as [F1 F2 F3 F4' F5].
    unfold sensor_post. cbn [dht pinlog ticks].
    rewrite G1, G2, G3, G4, F1, F2, F3, F4'. rewrite T30 in F4.
    split; [reflexivity|split; [reflexivity|split; [reflexivity|split; [assumption|split; [assumption|]]]]].
    left. split; [reflexivity|]. split; [|split].
    + cbn. rewrite <- !app_assoc. reflexivity.
    + rewrite T4, T30. lia.
    + intros k Hk. rewrite (B4 k Hk), T30.
      replace (k <? 40)%nat with true by (symmetry; apply Nat.ltb_lt; exact Hk).
      reflexivity.
  - intros rv m4 (-> & K4 & F4). apply Hpost. split; [reflexivity|]. rewrite T30 in F4.
    split; [|exact F4].
    destruct K4 as [G1 G2 G3 G4 G5]. destruct K3 as [F1 F2 F3 F4' F5].
    split; congruence.
Qed.

(** On a line that stays low the acquisition times out while it waits for
    the acknowledge, with the buffer cleared. *)
Lemma stuck_line_times_out b wakeupDelay m :
  (forall k, line b k = false) ->
  exists m', _readSensor b wakeupDelay m = Val DHTLIB_ERROR_TIMEOUT m' /\
             bits (dht m') = zero_frame /\ ticks m' = ticks m.
Proof.
  intros Hline.
  assert (H : wp (_readSensor b wakeupDelay)
                 (fun rv m' => rv = DHTLIB_ERROR_TIMEOUT /\
                               bits (dht m') = zero_frame /\ ticks m' = ticks m)
                 (fun _ _ => False) m).
  { unfold _readSensor. apply wp_call.
    apply wp_bind. unfold wp at 1. rewrite clear_bits_all.
    apply wp_bind. unfold wp at 1, get_pin.
    do 6 (apply wp_bind, wp_emit).
    apply wp_bind, wp_busy_poll_stuck; [exact Hline|apply DHTLIB_TIMEOUT_range|].
    intros m' (E & T & _). rewrite E, T. repeat split. }
  apply wp_val in H. destruct H as (rv & m' & E & -> & Hb & Ht).
  exists m'. repeat split; assumption.
Qed.

(** ** Decoding *)

Lemma all_from_spec n P :
  forall lo, all_from n lo P = true -> forall v, lo <= v < lo + Z.of_nat n -> P v = true.
Proof.
  induction n as [|n IH]; intros lo H v Hv.
  - simpl in Hv. lia.
  - cbn [all_from] in H. apply andb_true_iff in H. destruct H as [H1 H2].
    destruct (Z.eq_dec v lo) as [->|Hne]; [exact H1|].
    apply (IH (lo + 1)); [exact H2|lia].
Qed.

Lemma all_bytes (P : Z -> bool) :
  all_from 256 0 P = true -> forall v, is_byte v -> P v = true.
Proof.
  intros H v Hv. apply (all_from_spec 256 P 0 H). unfold is_byte in Hv. lia.
Qed.

Lemma word_bytes h l : is_byte h -> is_byte l -> word h l = big_endian16 h l.
Proof.
  unfold is_byte, word, uint16, big_endian16. intros Hh Hl.
  rewrite Z.shiftl_mul_pow2 by lia.
  assert (D : Z.land (h * 2 ^ 8) l = 0).
  { apply Z.bits_inj'. intros n Hn. rewrite Z.land_spec, Z.bits_0.
    destruct (Z.lt_ge_cases n 8).
    - rewrite Z.mul_pow2_bits_low by lia. reflexivity.
    - replace l with (l mod 2 ^ 8) by (apply Z.mod_small; lia).
      rewrite Z.mod_pow2_bits_high by lia. apply andb_false_r. }
  rewrite <- Z.lxor_lor, <- Z.add_nocarry_lxor by exact D.
  rewrite Z.mod_small; lia.
Qed.

Lemma mask_bytes v :
  is_byte v ->
  Z.land v 127 = clear_top v /\ negb (Z.land v 128 =? 0) = Z.testbit v 7 /\
  is_byte (clear_top v) /\ Z.testbit v 7 = (128 <=? v).
Proof.
  intros Hv.
  assert (H : ((Z.land v 127 =? clear_top v) && Bool.eqb (negb (Z.land v 128 =? 0)) (Z.testbit v 7)
               && (0 <=? clear_top v) && (clear_top v <? 256)
               && Bool.eqb (Z.testbit v 7) (128 <=? v)) = true).
  { apply (all_bytes (fun v => (Z.land v 127 =? clear_top v)
                               && Bool.eqb (negb (Z.land v 128 =? 0)) (Z.testbit v 7)
                               && (0 <=? clear_top v) && (clear_top v <? 256)
                               && Bool.eqb (Z.testbit v 7) (128 <=? v))); [|exact Hv].
    vm_compute. reflexivity. }
  rewrite !andb_true_iff in H. destruct H as ((((H1 & H2) & H3) & H4) & H5).
  apply Z.eqb_eq in H1. apply eqb_prop in H2. apply eqb_prop in H5.
  apply Z.leb_le in H3. apply Z.ltb_lt in H4.
  split; [exact H1|split; [exact H2|split; [split; assumption|exact H5]]].
Qed.

(** *** Signs *)

Lemma is_byte_nonneg_be h l : is_byte h -> is_byte l -> 0 <= big_endian16 h l.
Proof. unfold is_byte, big_endian16. lia. Qed.

Lemma signbit_round_aux mx ex lx :
  signbit (binary_round_aux prec emax false mx ex lx) = false.
Proof.
  unfold binary_round_aux.
  destruct (shr_fexp prec emax mx ex lx) as [mrs e'].
  destruct (shr_fexp prec emax _ e' loc_Exact) as [mrs' e''].
  destruct (shr_m mrs'); [reflexivity| |reflexivity].
  destruct (Z.leb e'' (Z.sub emax prec)); reflexivity.
Qed.

Lemma signbit_of_Z v : 0 <= v -> signbit (of_Z v) = false.
Proof.
  intros Hv. unfold of_Z, binary_normalize. destruct v as [|p|p]; [reflexivity| |lia].
  unfold binary_round. destruct (shl_align _ _ _). apply signbit_round_aux.
Qed.

Lemma signbit_mul_tenth x : signbit x = false -> signbit (mul x tenth) = false.
Proof.
  destruct x as [s|s| |s m e]; cbn [signbit]; intros E; try subst s; try reflexivity.
  unfold mul, tenth, SFmul. cbn [xorb]. apply signbit_round_aux.
Qed.

Lemma sentinel_value : sentinel = S754_finite true 16367616 (-14).
Proof. vm_compute. reflexivity. Qed.

Lemma nonneg_not_sentinel x : signbit x = false -> Double.eqb x sentinel = false.
Proof.
  rewrite sentinel_value.
  destruct x as [s|s| |s m e]; cbn [signbit]; intros E; try subst s; reflexivity.
Qed.

(** A negated temperature compares equal to the invalid value for exactly
    one magnitude: 9990 tenths, the bytes 0x27 0x06. *)
Lemma negative_temperature_sentinel h l :
  0 <= h < 128 -> is_byte l ->
  Double.eqb (opp (mul (of_Z (big_endian16 h l)) tenth)) sentinel = (h =? 39) && (l =? 6).
Proof.
  intros Hh Hl. apply eqb_prop.
  apply (all_bytes (fun l => Bool.eqb (Double.eqb (opp (mul (of_Z (big_endian16 h l)) tenth)) sentinel)
                                      ((h =? 39) && (l =? 6)))); [|exact Hl].
  apply (all_from_spec 128
           (fun h => all_from 256 0
              (fun l => Bool.eqb (Double.eqb (opp (mul (of_Z (big_endian16 h l)) tenth)) sentinel)
                                 ((h =? 39) && (l =? 6)))) 0); [|lia].
  vm_compute. reflexivity.
Qed.

(** The decoded temperature of the scaled variant compares equal to the
    invalid value for exactly one pair of bytes: 0xA7 0x06, sign bit set
    and magnitude 9990. *)
Lemma scaled_temperature_sentinel f :
  is_byte (byte2 f) -> is_byte (byte3 f) ->
  Double.eqb (scaled_temperature f) sentinel = (byte2 f =? 167) && (byte3 f =? 6).
Proof.
  intros H2 H3. unfold scaled_temperature, clear_top.
  destruct (mask_bytes _ H2) as (_ & _ & _ & T). rewrite T.
  unfold is_byte in H2.
  destruct (Z.leb_spec 128 (byte2 f)) as [Hge|Hlt].
  - rewrite negative_temperature_sentinel by (unfold is_byte in *; lia).
    f_equal. destruct (Z.eqb_spec (byte2 f - 128) 39), (Z.eqb_spec (byte2 f) 167); try reflexivity; lia.
  - rewrite nonneg_not_sentinel
      by (apply signbit_mul_tenth, signbit_of_Z, is_byte_nonneg_be; unfold is_byte in *; lia).
    destruct (Z.eqb_spec (byte2 f) 167); [lia|reflexivity].
Qed.

(** ** The two decode variants after the acquisition *)

Lemma read11_ok b m m' :
  _readSensor b DHTLIB_DHT11_WAKEUP m = Val DHTLIB_OK m' ->
  read11 b m =
  Val (if byte4 (bits (dht m')) =? checksum (bits (dht m'))
       then DHTLIB_OK else DHTLIB_ERROR_CHECKSUM)
      (with_reading m' (of_Z (byte0 (bits (dht m')))) (of_Z (byte2 (bits (dht m'))))).
Proof.
  intros H. unfold read11, bind. rewrite H. cbn.
  unfold checksum, uint8.
  replace (byte0 (bits (dht m')) + byte2 (bits (dht m')) + byte1 (bits (dht m')) + byte3 (bits (dht m')))
    with (byte0 (bits (dht m')) + byte1 (bits (dht m')) + byte2 (bits (dht m')) + byte3 (bits (dht m')))
    by lia.
  destruct (byte4 (bits (dht m')) =? _); reflexivity.
Qed.

Lemma read11_timeout b m m' :
  _readSensor b DHTLIB_DHT11_WAKEUP m = Val DHTLIB_ERROR_TIMEOUT m' ->
  read11 b m = Val DHTLIB_ERROR_TIMEOUT (with_reading m' sentinel sentinel).
Proof.
  intros H. unfold read11, bind. rewrite H. reflexivity.
Qed.

Lemma acquired_bytes b w m rv m' :
  _readSensor b w m = Val rv m' -> sensor_post b w m rv m'.
Proof.
  intros H. destruct (_readSensor_spec b w m) as (rv0 & m0 & E & P).
  rewrite H in E. injection E as -> ->. exact P.
Qed.

Lemma _read_ok b m m' :
  _readSensor b DHTLIB_DHT11_WAKEUP m = Val DHTLIB_OK m' ->
  _read b m =
  Val (if byte4 (bits (dht m')) =? checksum (bits (dht m'))
       then DHTLIB_OK else DHTLIB_ERROR_CHECKSUM)
      (with_reading m' (scaled_humidity (bits (dht m'))) (scaled_temperature (bits (dht m')))).
Proof.
  intros H. pose proof (acquired_bytes _ _ _ _ _ H) as (_ & _ & _ & (B0 & B1 & B2 & B3 & B4) & _).
  unfold _read, bind. rewrite H. cbn.
  unfold scaled_humidity, scaled_temperature, checksum, uint8.
  destruct (mask_bytes _ B2) as (E1 & E2 & E3 & _).
  rewrite E1, (word_bytes _ _ B0 B1), (word_bytes _ _ E3 B3), E2.
  clear E2.
  destruct (Z.testbit (byte2 (bits (dht m'))) 7); cbn;
    destruct (byte4 (bits (dht m')) =? _); reflexivity.
Qed.

Lemma _read_timeout b m m' :
  _readSensor b DHTLIB_DHT11_WAKEUP m = Val DHTLIB_ERROR_TIMEOUT m' ->
  _read b m = Val DHTLIB_ERROR_TIMEOUT (with_reading m' sentinel sentinel).
Proof.
  intros H. unfold _read, bind. rewrite H. reflexivity.
Qed.


(** * The properties of the driver *)

(** ** Checksum failures *)

(** C1, as the specification states it, fails: a frame with a wrong checksum
    whose bytes 2 and 3 are 0xA7 and 0x06 makes [_read] return
    DHTLIB_ERROR_CHECKSUM with a temperature field that is the invalid value
    -999 itself (sign bit set, magnitude 9990 tenths). *)
Lemma checksum_error_temperature_can_equal_sentinel :
  _readSensor (sensor_board [0; 0; 167; 6; 0]) DHTLIB_DHT11_WAKEUP (fresh 7)
  = Val DHTLIB_OK (acquired (sensor_board [0; 0; 167; 6; 0]) DHTLIB_DHT11_WAKEUP (fresh 7)) /\
  bits (dht (acquired (sensor_board [0; 0; 167; 6; 0]) DHTLIB_DHT11_WAKEUP (fresh 7)))
  = mkFrame 0 0 167 6 0 /\
  0 <> checksum (mkFrame 0 0 167 6 0) /\
  exists m', _read (sensor_board [0; 0; 167; 6; 0]) (fresh 7) = Val DHTLIB_ERROR_CHECKSUM m' /\
             temperature (dht m') = sentinel /\
             sentinel = of_Z (-999).
Proof.
  split; [vm_compute; reflexivity|].
  split; [vm_compute; reflexivity|].
  split; [vm_compute; discriminate|].
  eexists. split; [vm_compute; reflexivity|].
  split; vm_compute; reflexivity.
Qed.

(** C1, amended: for every frame whose acquisition completes but whose fifth
    byte differs from the sum of the first four modulo 256, [read11] and
    [_read] return DHTLIB_ERROR_CHECKSUM and leave in the humidity and
    temperature fields the values just decoded from that frame.  These
    differ from the invalid value -999, except for the temperature of
    [_read], which equals it exactly when bytes 2 and 3 are 0xA7 and 0x06. *)
Theorem checksum_error_keeps_decoded_values b m m' :
  _readSensor b DHTLIB_DHT11_WAKEUP m = Val DHTLIB_OK m' ->
  byte4 (bits (dht m')) <> checksum (bits (dht m')) ->
  (exists m1,
      read11 b m = Val DHTLIB_ERROR_CHECKSUM m1 /\
      humidity (dht m1) = of_Z (byte0 (bits (dht m'))) /\
      temperature (dht m1) = of_Z (byte2 (bits (dht m'))) /\
      Double.eqb (humidity (dht m1)) sentinel = false /\
      Double.eqb (temperature (dht m1)) sentinel = false) /\
  (exists m2,
      _read b m = Val DHTLIB_ERROR_CHECKSUM m2 /\
      humidity (dht m2) = scaled_humidity (bits (dht m')) /\
      temperature (dht m2) = scaled_temperature (bits (dht m')) /\
      Double.eqb (humidity (dht m2)) sentinel = false /\
      (Double.eqb (temperature (dht m2)) sentinel = true <->
       byte2 (bits (dht m')) = 167 /\ byte3 (bits (dht m')) = 6)).
Proof.
  intros H Hsum.
  pose proof (acquired_bytes _ _ _ _ _ H) as (_ & _ & _ & (B0 & B1 & B2 & B3 & B4) & _).
  apply Z.eqb_neq in Hsum.
  split.
  - eexists. rewrite (read11_ok _ _ _ H), Hsum.
    split; [reflexivity|]. cbn [with_reading with_dht dht humidity temperature].
    split; [reflexivity|]. split; [reflexivity|].
    split; apply nonneg_not_sentinel, signbit_of_Z; unfold is_byte in *; lia.
  - eexists. rewrite (_read_ok _ _ _ H), Hsum.
    split; [reflexivity|]. cbn [with_reading with_dht dht humidity temperature].
    split; [reflexivity|]. split; [reflexivity|]. split.
    + apply nonneg_not_sentinel, signbit_mul_tenth, signbit_of_Z, is_byte_nonneg_be; assumption.
    + rewrite (scaled_temperature_sentinel _ B2 B3), andb_true_iff, !Z.eqb_eq. tauto.
Qed.

Lemma checksum_error_keeps_decoded_values_witness :
  _readSensor (sensor_board [45; 0; 23; 0; 69]) DHTLIB_DHT11_WAKEUP (fresh 7)
  = Val DHTLIB_OK (acquired (sensor_board [45; 0; 23; 0; 69]) DHTLIB_DHT11_WAKEUP (fresh 7)) /\
  byte4 (bits (dht (acquired (sensor_board [45; 0; 23; 0; 69]) DHTLIB_DHT11_WAKEUP (fresh 7))))
  <> checksum (bits (dht (acquired (sensor_board [45; 0; 23; 0; 69]) DHTLIB_DHT11_WAKEUP (fresh 7)))) /\
  exists m1,
    read11 (sensor_board [45; 0; 23; 0; 69]) (fresh 7) = Val DHTLIB_ERROR_CHECKSUM m1 /\
    humidity (dht m1) = lit_45 /\ temperature (dht m1) = lit_23.
Proof.
  assert (H1 : _readSensor (sensor_board [45; 0; 23; 0; 69]) DHTLIB_DHT11_WAKEUP (fresh 7)
               = Val DHTLIB_OK (acquired (sensor_board [45; 0; 23; 0; 69]) DHTLIB_DHT11_WAKEUP (fresh 7)))
    by (vm_compute; reflexivity).
  assert (H2 : byte4 (bits (dht (acquired (sensor_board [45; 0; 23; 0; 69]) DHTLIB_DHT11_WAKEUP (fresh 7))))
               <> checksum (bits (dht (acquired (sensor_board [45; 0; 23; 0; 69]) DHTLIB_DHT11_WAKEUP (fresh 7)))))
    by (vm_compute; discriminate).
  split; [exact H1|]. split; [exact H2|].
  destruct (checksum_error_keeps_decoded_values _ _ _ H1 H2) as ((m1 & E & Hh & Ht & _) & _).
  exists m1. split; [exact E|].
  split; [rewrite Hh|rewrite Ht]; vm_compute; reflexivity.
Defined.

(** ** The wake-up delay of the scaled variant *)

(** C2: the header gives DHTLIB_DHT_WAKEUP = 1 ms as the wake-up delay of
    the sensors other than the DHT11, for which [_read] is the driver; but
    on every board and in every state the acquisition of [_read] holds the
    line low for DHTLIB_DHT11_WAKEUP = 18 ms, and no delay of 1 ms occurs
    in it. *)
Theorem read_scaled_wakes_for_18_ms b m :
  exists rv m' tl,
    _read b m = Val rv m' /\
    pinlog m' = pinlog m ++ request_events (connected_pin (dht m)) 18 ++ tl /\
    In (EvDelay 18) (request_events (connected_pin (dht m)) 18 ++ tl) /\
    ~ In (EvDelay DHTLIB_DHT_WAKEUP) (request_events (connected_pin (dht m)) 18 ++ tl).
Proof.
  destruct (_readSensor_spec b DHTLIB_DHT11_WAKEUP m)
    as (rv & m' & E & _ & _ & _ & _ & _ & [(-> & L & _)|(-> & L)]).
  - eexists _, _, (release_events (connected_pin (dht m))).
    rewrite (_read_ok _ _ _ E). split; [reflexivity|].
    split; [exact L|]. split.
    + cbn. tauto.
    + cbn. intros [H|[H|[H|[H|[H|[H|[H|[H|[]]]]]]]]]; discriminate.
  - eexists _, _, [].
    rewrite (_read_timeout _ _ _ E). split; [reflexivity|].
    split; [cbn [with_reading with_dht pinlog]; rewrite L, app_nil_r; reflexivity|]. split.
    + cbn. tauto.
    + cbn. intros [H|[H|[H|[H|[H|[H|[]]]]]]]; discriminate.
Qed.

(** ** Time-outs *)

(** C3: for every prior state, if the acquisition of [read11] or of [_read]
    times out, the operation returns DHTLIB_ERROR_TIMEOUT and both humidity
    and temperature are the invalid value -999. *)
Theorem timeout_sets_sentinel b m m' :
  _readSensor b DHTLIB_DHT11_WAKEUP m = Val DHTLIB_ERROR_TIMEOUT m' ->
  (exists m1, read11 b m = Val DHTLIB_ERROR_TIMEOUT m1 /\
              humidity (dht m1) = of_Z (-999) /\ temperature (dht m1) = of_Z (-999)) /\
  (exists m2, _read b m = Val DHTLIB_ERROR_TIMEOUT m2 /\
              humidity (dht m2) = of_Z (-999) /\ temperature (dht m2) = of_Z (-999)).
Proof.
  intros H. split; eexists.
  - rewrite (read11_timeout _ _ _ H). repeat split.
  - rewrite (_read_timeout _ _ _ H). repeat split.
Qed.

Lemma timeout_sets_sentinel_witness :
  _readSensor stuck_board DHTLIB_DHT11_WAKEUP (with_reading (fresh 7) lit_45 lit_23)
  = Val DHTLIB_ERROR_TIMEOUT
        (acquired stuck_board DHTLIB_DHT11_WAKEUP (with_reading (fresh 7) lit_45 lit_23)) /\
  (exists m1, read11 stuck_board (with_reading (fresh 7) lit_45 lit_23)
              = Val DHTLIB_ERROR_TIMEOUT m1 /\
              humidity (dht m1) = of_Z (-999) /\ temperature (dht m1) = of_Z (-999)) /\
  (exists m2, _read stuck_board (with_reading (fresh 7) lit_45 lit_23)
              = Val DHTLIB_ERROR_TIMEOUT m2 /\
              humidity (dht m2) = of_Z (-999) /\ temperature (dht m2) = of_Z (-999)).
Proof.
  assert (H : _readSensor stuck_board DHTLIB_DHT11_WAKEUP (with_reading (fresh 7) lit_45 lit_23)
              = Val DHTLIB_ERROR_TIMEOUT
                    (acquired stuck_board DHTLIB_DHT11_WAKEUP (with_reading (fresh 7) lit_45 lit_23)))
    by (vm_compute; reflexivity).
  split; [exact H|].
  exact (timeout_sets_sentinel _ _ _ H).
Defined.

(** ** Who writes the reading fields *)

(** The three operations that run an acquisition end with a result. *)
Lemma reads_end b m :
  (exists rv m', read11 b m = Val rv m') /\
  (exists rv m', _read b m = Val rv m') /\
  (exists r m', isConnected b m = Val r m' /\
                humidity (dht m') = humidity (dht m) /\
                temperature (dht m') = temperature (dht m)).
Proof.
  split; [|split].
  - destruct (_readSensor_spec b DHTLIB_DHT11_WAKEUP m)
      as (rv & m' & E & _ & _ & _ & _ & _ & [(-> & _)|(-> & _)]).
    + rewrite (read11_ok _ _ _ E). eexists _, _. reflexivity.
    + rewrite (read11_timeout _ _ _ E). eexists _, _. reflexivity.
  - destruct (_readSensor_spec b DHTLIB_DHT11_WAKEUP m)
      as (rv & m' & E & _ & _ & _ & _ & _ & [(-> & _)|(-> & _)]).
    + rewrite (_read_ok _ _ _ E). eexists _, _. reflexivity.
    + rewrite (_read_timeout _ _ _ E). eexists _, _. reflexivity.
  - destruct (_readSensor_spec b DHTLIB_DHT_WAKEUP m) as (rv & m' & E & Hh & Ht & _).
    exists (code_eqb rv DHTLIB_OK), m'. unfold isConnected, bind. rewrite E.
    split; [reflexivity|]. split; assumption.
Qed.

(** C4, as the specification states it, fails: [setHumidity] is a public
    operation outside of the read family, and any caller can use it to
    write the humidity field. *)
Lemma setHumidity_writes_reading :
  is_read_family (OpSetHumidity lit_45) = false /\
  exists m', run stuck_board (OpSetHumidity lit_45) (fresh 7) = Some m' /\
             humidity (dht (fresh 7)) = sentinel /\
             humidity (dht m') = lit_45 /\
             humidity (dht m') <> humidity (dht (fresh 7)).
Proof.
  split; [reflexivity|]. eexists. split; [reflexivity|].
  split; [reflexivity|]. split; [reflexivity|].
  vm_compute. discriminate.
Qed.

(** C4, amended: the humidity and temperature fields are written by the
    read family, by [reset] and by the public mutators [setHumidity] and
    [setTemperature], which any caller can use; every other operation of the
    public interface ends and leaves both fields as they were.  [reset]
    writes the invalid value to both, each mutator writes its argument to
    its own field. *)
Theorem reading_fields_written_only_by_writers b op m :
  exists m',
    run b op m = Some m' /\
    (writes_reading op = false ->
     humidity (dht m') = humidity (dht m) /\ temperature (dht m') = temperature (dht m)) /\
    (forall v, op = OpSetHumidity v ->
     humidity (dht m') = v /\ temperature (dht m') = temperature (dht m)) /\
    (forall v, op = OpSetTemperature v ->
     humidity (dht m') = humidity (dht m) /\ temperature (dht m') = v) /\
    (op = OpReset -> humidity (dht m') = sentinel /\ temperature (dht m') = sentinel).
Proof.
  destruct (reads_end b m) as ((r1 & m1 & E1) & (r2 & m2 & E2) & (r3 & m3 & E3 & Hh & Ht)).
  destruct op; cbn [run writes_reading]; unfold read21, read22, read33, read44;
    rewrite ?E1, ?E2, ?E3; cbn [final];
    eexists; (split; [reflexivity|]);
    repeat split; intros; try discriminate; try assumption; try reflexivity;
    match goal with H : _ = _ |- _ => injection H as <-; reflexivity end.
Qed.

(** ** Decoding *)

(** C5: on a successful acquisition, [_read] decodes humidity as the 16-bit
    big-endian value of bytes 0-1 times 0.1, and temperature as the 16-bit
    value of byte 2 (top bit masked off) and byte 3 times 0.1, negated when
    the top bit of byte 2 is set; bytes 0x80 0x05 give -0.5. *)
Theorem read_scaled_decodes b m m' :
  _readSensor b DHTLIB_DHT11_WAKEUP m = Val DHTLIB_OK m' ->
  exists rv m2,
    _read b m = Val rv m2 /\
    bits (dht m2) = bits (dht m') /\
    humidity (dht m2)
    = mul (of_Z (256 * byte0 (bits (dht m')) + byte1 (bits (dht m')))) tenth /\
    temperature (dht m2)
    = (if Z.testbit (byte2 (bits (dht m'))) 7
       then opp (mul (of_Z (256 * (byte2 (bits (dht m')) - 128) + byte3 (bits (dht m')))) tenth)
       else mul (of_Z (256 * byte2 (bits (dht m')) + byte3 (bits (dht m')))) tenth) /\
    (byte2 (bits (dht m')) = 128 -> byte3 (bits (dht m')) = 5 ->
     temperature (dht m2) = opp half).
Proof.
  intros H. eexists _, _. rewrite (_read_ok _ _ _ H).
  split; [reflexivity|]. cbn [with_reading with_dht dht bits humidity temperature].
  split; [reflexivity|]. split; [reflexivity|].
  unfold scaled_temperature, clear_top, big_endian16. split.
  - destruct (Z.testbit _ 7); reflexivity.
  - intros -> ->. vm_compute. reflexivity.
Qed.

Lemma read_scaled_decodes_witness :
  _readSensor (sensor_board [1; 2; 128; 5; 136]) DHTLIB_DHT11_WAKEUP (fresh 7)
  = Val DHTLIB_OK (acquired (sensor_board [1; 2; 128; 5; 136]) DHTLIB_DHT11_WAKEUP (fresh 7)) /\
  exists rv m2,
    _read (sensor_board [1; 2; 128; 5; 136]) (fresh 7) = Val rv m2 /\
    bits (dht m2) = mkFrame 1 2 128 5 136 /\
    temperature (dht m2) = opp half.
Proof.
  assert (H : _readSensor (sensor_board [1; 2; 128; 5; 136]) DHTLIB_DHT11_WAKEUP (fresh 7)
              = Val DHTLIB_OK (acquired (sensor_board [1; 2; 128; 5; 136]) DHTLIB_DHT11_WAKEUP (fresh 7)))
    by (vm_compute; reflexivity).
  split; [exact H|].
  destruct (read_scaled_decodes _ _ _ H) as (rv & m2 & E & Hb & _ & _ & Hex).
  exists rv, m2. split; [exact E|]. split.
  - rewrite Hb. vm_compute. reflexivity.
  - apply Hex; vm_compute; reflexivity.
Defined.

(** C6: on a successful acquisition, [read11] stores byte 0 as humidity and
    byte 2 as temperature, converted to floating point, and returns
    DHTLIB_OK exactly when byte 4 is the sum of bytes 0-3 modulo 256;
    the frame 45, 0, 23, 0, 68 gives DHTLIB_OK, 45.0 and 23.0. *)
Theorem read_packed_decodes b m m' :
  _readSensor b DHTLIB_DHT11_WAKEUP m = Val DHTLIB_OK m' ->
  exists rv m1,
    read11 b m = Val rv m1 /\
    bits (dht m1) = bits (dht m') /\
    humidity (dht m1) = of_Z (byte0 (bits (dht m'))) /\
    temperature (dht m1) = of_Z (byte2 (bits (dht m'))) /\
    (rv = DHTLIB_OK <->
     byte4 (bits (dht m'))
     = (byte0 (bits (dht m')) + byte1 (bits (dht m'))
        + byte2 (bits (dht m')) + byte3 (bits (dht m'))) mod 256) /\
    (rv = DHTLIB_OK \/ rv = DHTLIB_ERROR_CHECKSUM) /\
    (bits (dht m') = mkFrame 45 0 23 0 68 ->
     rv = DHTLIB_OK /\ humidity (dht m1) = lit_45 /\ temperature (dht m1) = lit_23).
Proof.
  intros H. eexists _, _. rewrite (read11_ok _ _ _ H).
  split; [reflexivity|]. cbn [with_reading with_dht dht bits humidity temperature].
  split; [reflexivity|]. split; [reflexivity|]. split; [reflexivity|].
  unfold checksum. split; [|split].
  - destruct (Z.eqb_spec (byte4 (bits (dht m')))
                ((byte0 (bits (dht m')) + byte1 (bits (dht m'))
                  + byte2 (bits (dht m')) + byte3 (bits (dht m'))) mod 256)).
    + tauto.
    + split; [discriminate|tauto].
  - destruct (_ =? _); auto.
  - intros ->. vm_compute. repeat split.
Qed.

Lemma read_packed_decodes_witness :
  _readSensor (sensor_board [45; 0; 23; 0; 68]) DHTLIB_DHT11_WAKEUP (fresh 7)
  = Val DHTLIB_OK (acquired (sensor_board [45; 0; 23; 0; 68]) DHTLIB_DHT11_WAKEUP (fresh 7)) /\
  exists m1,
    read11 (sensor_board [45; 0; 23; 0; 68]) (fresh 7) = Val DHTLIB_OK m1 /\
    humidity (dht m1) = lit_45 /\ temperature (dht m1) = lit_23.
Proof.
  assert (H : _readSensor (sensor_board [45; 0; 23; 0; 68]) DHTLIB_DHT11_WAKEUP (fresh 7)
              = Val DHTLIB_OK (acquired (sensor_board [45; 0; 23; 0; 68]) DHTLIB_DHT11_WAKEUP (fresh 7)))
    by (vm_compute; reflexivity).
  split; [exact H|].
  destruct (read_packed_decodes _ _ _ H) as (rv & m1 & E & _ & _ & _ & _ & _ & Hex).
  destruct Hex as (-> & Hh & Ht); [vm_compute; reflexivity|].
  exists m1. split; [exact E|]. split; assumption.
Defined.

(** ** Bit packing *)

Lemma bind_state_eq {A B : Type} (c : M A) (k : A -> M B) m1 m2 :
  c m1 = c m2 -> bind c k m1 = bind c k m2.
Proof. intros H. unfold bind. rewrite H. reflexivity. Qed.

Lemma call_state_eq body m1 m2 : body m1 = body m2 -> call body m1 = call body m2.
Proof. intros H. unfold call. rewrite H. reflexivity. Qed.

(** C7: when the acquisition completes without time-out, the 40 measured
    high pulses are packed most significant bit first: bit [7 - k mod 8] of
    byte [k / 8] is 1 exactly when the k-th pulse is longer than 40
    microseconds; the five bytes hold nothing else. *)
Theorem readSensor_packs_msb_first b wakeupDelay m m' :
  _readSensor b wakeupDelay m = Val DHTLIB_OK m' ->
  bytes_ok (bits (dht m')) /\
  forall k, (k < 40)%nat ->
    Z.testbit (frame_byte (bits (dht m')) (Z.of_nat (k / 8))) (7 - Z.of_nat (k mod 8))
    = (40 <? pulse b (ticks m) k).
Proof.
  intros H.
  destruct (acquired_bytes _ _ _ _ _ H) as (_ & _ & _ & B & _ & [(_ & _ & _ & P)|(E & _)]).
  - split; [exact B|]. exact P.
  - discriminate.
Qed.

Lemma readSensor_packs_msb_first_witness :
  _readSensor (sensor_board [170; 85; 170; 85; 254]) DHTLIB_DHT_WAKEUP (fresh 7)
  = Val DHTLIB_OK (acquired (sensor_board [170; 85; 170; 85; 254]) DHTLIB_DHT_WAKEUP (fresh 7)) /\
  bits (dht (acquired (sensor_board [170; 85; 170; 85; 254]) DHTLIB_DHT_WAKEUP (fresh 7)))
  = mkFrame 170 85 170 85 254 /\
  forall k, (k < 40)%nat ->
    Z.testbit (frame_byte (bits (dht (acquired (sensor_board [170; 85; 170; 85; 254])
                                               DHTLIB_DHT_WAKEUP (fresh 7))))
                          (Z.of_nat (k / 8))) (7 - Z.of_nat (k mod 8))
    = (40 <? pulse (sensor_board [170; 85; 170; 85; 254]) (ticks (fresh 7)) k).
Proof.
  assert (H : _readSensor (sensor_board [170; 85; 170; 85; 254]) DHTLIB_DHT_WAKEUP (fresh 7)
              = Val DHTLIB_OK (acquired (sensor_board [170; 85; 170; 85; 254]) DHTLIB_DHT_WAKEUP (fresh 7)))
    by (vm_compute; reflexivity).
  split; [exact H|]. split; [vm_compute; reflexivity|].
  exact (proj2 (readSensor_packs_msb_first _ _ _ _ H)).
Defined.

(** ** The cleared buffer *)

(** C8: every read attempt zeroes the five bytes before anything else, so
    its outcome does not depend on what the buffer held before, and every
    bit that is set in the frame afterwards, also after a time-out, was
    received as a long pulse in this attempt. *)
Theorem read_attempt_starts_from_cleared_frame b wakeupDelay m f :
  _readSensor b wakeupDelay (with_bits m f) = _readSensor b wakeupDelay m /\
  read11 b (with_bits m f) = read11 b m /\
  _read b (with_bits m f) = _read b m /\
  isConnected b (with_bits m f) = isConnected b m /\
  clear_bits 5 0 (with_bits m f) = Val tt (with_bits m zero_frame) /\
  exists rv m',
    _readSensor b wakeupDelay (with_bits m f) = Val rv m' /\
    bytes_ok (bits (dht m')) /\
    forall k, (k < 40)%nat ->
      frame_bit (bits (dht m')) k = true -> (40 <? pulse b (ticks m) k) = true.
Proof.
  assert (E : forall w, _readSensor b w (with_bits m f) = _readSensor b w m).
  { intros w. unfold _readSensor. apply call_state_eq, bind_state_eq. reflexivity. }
  split; [apply E|].
  split; [unfold read11; apply bind_state_eq, E|].
  split; [unfold _read; apply bind_state_eq, E|].
  split; [unfold isConnected; apply bind_state_eq, E|].
  split; [reflexivity|].
  rewrite E.
  destruct (_readSensor_spec b wakeupDelay m) as (rv & m' & H & _ & _ & _ & B & F & _).
  exists rv, m'. split; [exact H|]. split; [exact B|exact F].
Qed.

(** ** The liveness probe *)

(** C9: for every prior state, [isConnected] leaves humidity and
    temperature unchanged, and returns true exactly when the acquisition,
    run with the wake-up delay of 1 ms, completes without time-out. *)
Theorem isConnected_is_a_probe b m :
  exists r m',
    isConnected b m = Val r m' /\
    humidity (dht m') = humidity (dht m) /\
    temperature (dht m') = temperature (dht m) /\
    (r = true <-> _readSensor b 1 m = Val DHTLIB_OK m') /\
    (r = false <-> _readSensor b 1 m = Val DHTLIB_ERROR_TIMEOUT m') /\
    pinlog m' = pinlog m ++ request_events (connected_pin (dht m)) 1
                         ++ (if r then release_events (connected_pin (dht m)) else []).
Proof.
  destruct (_readSensor_spec b DHTLIB_DHT_WAKEUP m)
    as (rv & m' & E & Hh & Ht & _ & _ & _ & [(-> & L & _)|(-> & L)]);
    eexists _, m'; unfold isConnected, bind; rewrite E; cbn [ret code_eqb code_value Z.eqb];
    (split; [reflexivity|]); (split; [exact Hh|]); (split; [exact Ht|]);
    change 1 with DHTLIB_DHT_WAKEUP; rewrite E.
  - split; [tauto|]. split; [split; discriminate|exact L].
  - split; [split; discriminate|]. split; [tauto|]. rewrite L, app_nil_r. reflexivity.
Qed.

(** ** The buffer index *)

Lemma iter_next_bit k :
  (k <= 40)%nat -> Nat.iter k next_bit (128, 0) = bit_position k.
Proof.
  induction k as [|k IH]; intros Hk.
  - reflexivity.
  - change (Nat.iter (S k) next_bit (128, 0)) with (next_bit (Nat.iter k next_bit (128, 0))).
    rewrite IH by lia. apply next_bit_position. lia.
Qed.

(** C10: in the 40 iterations of the bit loop, which start from mask 128
    and index 0, iteration [k] uses the mask of bit [7 - k mod 8] and the
    index [k / 8], at most 4; each index from 0 to 4 is used in exactly 8
    iterations, the index reaches 5 only when the loop is over, and no
    acquisition ever accesses the buffer outside of its five bytes. *)
Theorem bit_loop_stays_in_buffer :
  (forall k, (k < 40)%nat ->
     Nat.iter k next_bit (128, 0) = (2 ^ (7 - Z.of_nat (k mod 8)), Z.of_nat (k / 8)) /\
     0 <= snd (Nat.iter k next_bit (128, 0)) <= 4) /\
  (forall q, 0 <= q <= 4 ->
     length (filter (fun k => snd (Nat.iter k next_bit (128, 0)) =? q) (seq 0 40)) = 8%nat) /\
  Nat.iter 40 next_bit (128, 0) = (128, 5) /\
  (forall b wakeupDelay m,
     _readSensor b wakeupDelay m <> OutOfBounds /\
     read11 b m <> OutOfBounds /\ _read b m <> OutOfBounds /\ isConnected b m <> OutOfBounds).
Proof.
  split; [|split; [|split]].
  - intros k Hk. rewrite iter_next_bit by lia. split; [reflexivity|].
    unfold bit_position. cbn [snd].
    pose proof (Nat.div_mod_eq k 8). pose proof (Nat.mod_upper_bound k 8). lia.
  - intros q Hq.
    assert (q = 0 \/ q = 1 \/ q = 2 \/ q = 3 \/ q = 4) as [->|[->|[->|[->| ->]]]] by lia;
      vm_compute; reflexivity.
  - vm_compute. reflexivity.
  - intros b w m.
    destruct (reads_end b m) as ((r1 & m1 & E1) & (r2 & m2 & E2) & (r3 & m3 & E3 & _)).
    destruct (_readSensor_spec b w m) as (rv & m' & E & _).
    rewrite E, E1, E2, E3. repeat split; discriminate.
Qed.

(** * Further properties of the driver *)

(** ** The busy-poll loops *)

Lemma wp_of_eq {A : Type} (c : M A) (r : Res A) Q R m :
  c m = r ->
  match r with
  | Val a m' => Q a m'
  | Ret rv m' => R rv m'
  | OutOfBounds => False
  | OutOfFuel => False
  end ->
  wp c Q R m.
Proof. intros E H. unfold wp. rewrite E. exact H. Qed.

Lemma busy_poll_count_eq b level :
  forall fuel c m,
    1 <= c <= 65536 -> c <= Z.of_nat fuel ->
    busy_poll b level fuel c m =
    match first_change b level (polls m) (Z.to_nat c) with
    | Some j => Val tt (with_polls m (polls m + j + 1))
    | None => Ret DHTLIB_ERROR_TIMEOUT (with_polls m (polls m + Z.to_nat c))
    end.
Proof.
  induction fuel as [|fuel IH]; intros c m Hc Hf.
  - simpl in Hf. lia.
  - cbn [busy_poll]. unfold bind, read_line.
    replace (Z.to_nat c) with (S (Z.to_nat (c - 1))) by lia.
    cbn [first_change].
    destruct (Bool.eqb (line b (polls m)) level).
    + rewrite uint16_pred by lia.
      destruct (Z.eqb_spec (c - 1) 0) as [E|E].
      * rewrite E. cbn. unfold return_, with_polls. do 2 f_equal. lia.
      * rewrite IH by lia. cbn [polls].
        destruct (first_change b level (S (polls m)) (Z.to_nat (c - 1))) as [j|];
          cbn [option_map]; unfold with_polls; cbn [dht ticks pinlog]; do 2 f_equal; lia.
    + unfold ret, with_polls. do 2 f_equal. lia.
Qed.

Lemma busy_poll_closed_form b level m :
  busy_poll b level poll_fuel (DHTLIB_TIMEOUT b) m =
  match first_change b level (polls m) (poll_budget (DHTLIB_TIMEOUT b)) with
  | Some j => Val tt (with_polls m (polls m + j + 1))
  | None => Ret DHTLIB_ERROR_TIMEOUT
                (with_polls m (polls m + poll_budget (DHTLIB_TIMEOUT b)))
  end.
Proof.
  pose proof (DHTLIB_TIMEOUT_range b) as Hc. unfold poll_budget.
  destruct (Z.eqb_spec (DHTLIB_TIMEOUT b) 0) as [E|E].
  - rewrite E, poll_fuel_succ. cbn [busy_poll]. unfold bind, read_line.
    replace (Z.to_nat 65536) with (S (Z.to_nat 65535)) by lia.
    cbn [first_change].
    destruct (Bool.eqb (line b (polls m)) level).
    + change (uint16 (0 - 1)) with 65535. change (65535 =? 0) with false. cbv iota.
      rewrite busy_poll_count_eq by lia. cbn [polls].
      destruct (first_change b level (S (polls m)) (Z.to_nat 65535)) as [j|];
        cbn [option_map]; unfold with_polls; cbn [dht ticks pinlog]; do 2 f_equal; lia.
    + unfold ret, with_polls. do 2 f_equal. lia.
  - apply busy_poll_count_eq; [lia|]. unfold poll_fuel. lia.
Qed.

Lemma first_change_some b level : forall n p j,
  first_change b level p n = Some j ->
  (j < n)%nat /\ line b (p + j) <> level /\
  forall i, (i < j)%nat -> line b (p + i) = level.
Proof.
  induction n as [|n IH]; intros p j H; [discriminate|].
  cbn [first_change] in H.
  destruct (Bool.eqb (line b p) level) eqn:E.
  - destruct (first_change b level (S p) n) as [j'|] eqn:F; [|discriminate].
    injection H as <-. destruct (IH _ _ F) as (H1 & H2 & H3).
    split; [lia|]. split.
    + replace (p + S j')%nat with (S p + j')%nat by lia. exact H2.
    + intros [|i] Hi.
      * rewrite Nat.add_0_r. apply eqb_prop. exact E.
      * replace (p + S i)%nat with (S p + i)%nat by lia. apply H3. lia.
  - injection H as <-. split; [lia|]. split; [|intros i Hi; lia].
    rewrite Nat.add_0_r. intros F. rewrite F, eqb_reflx in E. discriminate.
Qed.

Lemma first_change_none b level : forall n p,
  first_change b level p n = None <->
  forall i, (i < n)%nat -> line b (p + i) = level.
Proof.
  induction n as [|n IH]; intros p.
  - split; [intros _ i Hi; lia|reflexivity].
  - cbn [first_change]. destruct (Bool.eqb (line b p) level) eqn:E.
    + destruct (first_change b level (S p) n) as [j|] eqn:F.
      * split; [discriminate|]. intros H.
        assert (G : first_change b level (S p) n = None).
        { apply IH. intros i Hi. replace (S p + i)%nat with (p + S i)%nat by lia.
          apply H. lia. }
        congruence.
      * split; [|reflexivity]. intros _ [|i] Hi.
        -- rewrite Nat.add_0_r. apply eqb_prop. exact E.
        -- replace (p + S i)%nat with (S p + i)%nat by lia.
           apply (proj1 (IH (S p)) F). lia.
    + split; [discriminate|]. intros H.
      specialize (H O ltac:(lia)). rewrite Nat.add_0_r in H.
      rewrite H, eqb_reflx in E. discriminate.
Qed.

Lemma poll_budget_range b : 1 <= Z.of_nat (poll_budget (DHTLIB_TIMEOUT b)) <= 65536.
Proof.
  pose proof (DHTLIB_TIMEOUT_range b). unfold poll_budget.
  destruct (Z.eqb_spec (DHTLIB_TIMEOUT b) 0); lia.
Qed.

(** X1: a busy-poll loop of the driver ends at the first of its register
    reads that finds the line at the other level, if that read is among the
    first N, where N is DHTLIB_TIMEOUT, or 65536 when DHTLIB_TIMEOUT is 0;
    otherwise it returns DHTLIB_ERROR_TIMEOUT after exactly N reads.  It
    changes nothing but the number of reads. *)
Theorem busy_poll_ends_at_first_change b level m :
  (exists j,
      (j < poll_budget (DHTLIB_TIMEOUT b))%nat /\
      line b (polls m + j) <> level /\
      (forall i, (i < j)%nat -> line b (polls m + i) = level) /\
      busy_poll b level poll_fuel (DHTLIB_TIMEOUT b) m
      = Val tt (with_polls m (polls m + j + 1)))
  \/
  ((forall i, (i < poll_budget (DHTLIB_TIMEOUT b))%nat -> line b (polls m + i) = level) /\
   busy_poll b level poll_fuel (DHTLIB_TIMEOUT b) m
   = Ret DHTLIB_ERROR_TIMEOUT (with_polls m (polls m + poll_budget (DHTLIB_TIMEOUT b)))).
Proof.
  rewrite busy_poll_closed_form.
  destruct (first_change b level (polls m) (poll_budget (DHTLIB_TIMEOUT b))) as [j|] eqn:F.
  - left. exists j. destruct (first_change_some _ _ _ _ _ F) as (H1 & H2 & H3).
    repeat split; assumption.
  - right. split; [|reflexivity]. apply first_change_none. exact F.
Qed.

(** ** What an acquisition costs *)

Lemma wlp_bind {A B : Type} (c : M A) (k : A -> M B) Q R m :
  wlp c (fun a m' => wlp (k a) Q R m') R m -> wlp (bind c k) Q R m.
Proof.
  unfold wlp, bind. destruct (c m); auto.
Qed.

Lemma wlp_conseq {A : Type} (c : M A) (Q Q' : A -> Machine -> Prop) R R' m :
  wlp c Q R m ->
  (forall a m', Q a m' -> Q' a m') ->
  (forall rv m', R rv m' -> R' rv m') ->
  wlp c Q' R' m.
Proof.
  unfold wlp. destruct (c m); auto.
Qed.

Lemma wlp_call body (Q : DHTLIB_ErrorCode -> Machine -> Prop) R m :
  wlp body Q Q m -> wlp (call body) Q R m.
Proof.
  unfold wlp, call. destruct (body m); auto.
Qed.

Lemma wlp_val {A : Type} (c : M A) (Q : A -> Machine -> Prop) R m a m' :
  wlp c Q R m -> c m = Val a m' -> Q a m'.
Proof. unfold wlp. intros H E. rewrite E in H. exact H. Qed.

Lemma wlp_emit e (Q : unit -> Machine -> Prop) R m :
  Q tt (mkMachine (dht m) (polls m) (ticks m) (pinlog m ++ [e])) -> wlp (emit e) Q R m.
Proof. auto. Qed.

Lemma wlp_micros b (Q : Z -> Machine -> Prop) R m :
  Q (uint32 (clock b (ticks m))) (mkMachine (dht m) (polls m) (S (ticks m)) (pinlog m)) ->
  wlp (micros b) Q R m.
Proof. auto. Qed.

Lemma wlp_busy_poll b level (Q : unit -> Machine -> Prop) R m :
  (forall m', only_polls m m' ->
              (polls m + 1 <= polls m' <= polls m + poll_budget (DHTLIB_TIMEOUT b))%nat ->
              Q tt m') ->
  (forall m', only_polls m m' ->
              polls m' = (polls m + poll_budget (DHTLIB_TIMEOUT b))%nat ->
              R DHTLIB_ERROR_TIMEOUT m') ->
  wlp (busy_poll b level poll_fuel (DHTLIB_TIMEOUT b)) Q R m.
Proof.
  intros HQ HR. unfold wlp. rewrite busy_poll_closed_form.
  destruct (first_change b level (polls m) (poll_budget (DHTLIB_TIMEOUT b))) as [j|] eqn:F.
  - destruct (first_change_some _ _ _ _ _ F) as (H1 & _).
    apply HQ; [repeat split|cbn [with_polls polls]; lia].
  - apply HR; [repeat split|reflexivity].
Qed.

Lemma wlp_or_bits idx mask (cond : bool) (Q : unit -> Machine -> Prop) R m :
  (forall f, Q tt (with_bits m f)) -> Q tt m ->
  wlp (if cond then (v <- load_bits idx ;; store_bits idx (Z.lor v mask)) else ret tt) Q R m.
Proof.
  intros H1 H2. destruct cond; [|exact H2].
  unfold wlp, bind, load_bits, store_bits.
  destruct (frame_get (bits (dht m)) idx); [|exact I].
  destruct (frame_set (bits (dht m)) idx _); [apply H1|exact I].
Qed.

Lemma wlp_read_bits_cost b :
  forall i mi m,
    wlp (read_bits b i mi)
        (fun _ m' => spent m m' (2 * i) (2 * i * poll_budget (DHTLIB_TIMEOUT b)) (2 * i) (2 * i))
        (fun rv m' => rv = DHTLIB_ERROR_TIMEOUT /\
                      spent m m' (poll_budget (DHTLIB_TIMEOUT b))
                            (2 * i * poll_budget (DHTLIB_TIMEOUT b)) 0 (2 * i - 1))
        m.
Proof.
  pose proof (poll_budget_range b) as HN.
  set (N := poll_budget (DHTLIB_TIMEOUT b)) in *.
  induction i as [|i IH]; intros mi m.
  - unfold wlp, spent. cbn. lia.
  - cbn [read_bits].
    apply wlp_bind, wlp_busy_poll; fold N; intros m1 (E1 & T1 & L1) P1;
      [|split; [reflexivity|unfold spent; nia]].
    apply wlp_bind, wlp_micros.
    apply wlp_bind, wlp_busy_poll; fold N; cbn [polls];
      intros m3 (E3 & T3 & L3) P3; cbn [dht ticks pinlog] in E3, T3, L3;
      [|split; [reflexivity|unfold spent; nia]].
    apply wlp_bind, wlp_micros.
    apply wlp_bind.
    assert (Hnext : forall m5, polls m5 = polls m3 -> ticks m5 = S (ticks m3) ->
              wlp (read_bits b i (next_bit mi))
                  (fun _ m' => spent m m' (2 * S i) (2 * S i * N) (2 * S i) (2 * S i))
                  (fun rv m' => rv = DHTLIB_ERROR_TIMEOUT /\
                                spent m m' N (2 * S i * N) 0 (2 * S i - 1)) m5).
    { intros m5 P5 T5. eapply wlp_conseq; [apply IH| |].
      - intros u m' H. cbv beta in H. unfold spent in *. nia.
      - intros rv m' (-> & H). split; [reflexivity|]. unfold spent in *. nia. }
    apply wlp_or_bits; [intros f|]; apply Hnext; reflexivity.
Qed.

Lemma wlp_readSensor_cost b wakeupDelay m :
  wlp (_readSensor b wakeupDelay)
      (fun rv m' => (rv = DHTLIB_OK /\
                     spent m m' 82 (82 * poll_budget (DHTLIB_TIMEOUT b)) 80 80) \/
                    (rv = DHTLIB_ERROR_TIMEOUT /\
                     spent m m' (poll_budget (DHTLIB_TIMEOUT b))
                           (82 * poll_budget (DHTLIB_TIMEOUT b)) 0 79))
      (fun _ _ => True) m.
Proof.
  pose proof (poll_budget_range b) as HN.
  unfold _readSensor. apply wlp_call.
  apply wlp_bind. unfold wlp at 1. rewrite clear_bits_all.
  apply wlp_bind. unfold wlp at 1, get_pin.
  do 6 (apply wlp_bind, wlp_emit).
  apply wlp_bind, wlp_busy_poll;
    intros m1 (E1 & T1 & L1) P1; cbn [polls ticks with_bits with_dht] in T1, P1;
    [|right; split; [reflexivity|unfold spent; lia]].
  apply wlp_bind, wlp_busy_poll;
    intros m2 (E2 & T2 & L2) P2;
    [|right; split; [reflexivity|unfold spent; lia]].
  apply wlp_bind.
  eapply wlp_conseq; [apply (wlp_read_bits_cost b 40)| |].
  - intros u m3 H3. cbv beta in H3.
    do 2 (apply wlp_bind, wlp_emit). unfold wlp, ret.
    left. split; [reflexivity|]. unfold spent in *. cbn [polls ticks]. lia.
  - intros rv0 m3 (-> & H3). right. split; [reflexivity|]. unfold spent in *. lia.
Qed.

(** X2: every acquisition ends.  With N the budget of one busy-poll loop, a
    successful one makes between 82 and 82 N register reads and exactly 80
    clock reads; one that times out makes between N and 82 N register reads
    and at most 79 clock reads. *)
Theorem acquisition_cost b wakeupDelay m :
  exists rv m',
    _readSensor b wakeupDelay m = Val rv m' /\
    ((rv = DHTLIB_OK /\
      (polls m + 82 <= polls m' <= polls m + 82 * poll_budget (DHTLIB_TIMEOUT b))%nat /\
      ticks m' = (ticks m + 80)%nat)
     \/
     (rv = DHTLIB_ERROR_TIMEOUT /\
      (polls m + poll_budget (DHTLIB_TIMEOUT b) <= polls m'
       <= polls m + 82 * poll_budget (DHTLIB_TIMEOUT b))%nat /\
      (ticks m <= ticks m' <= ticks m + 79)%nat)).
Proof.
  destruct (_readSensor_spec b wakeupDelay m) as (rv & m' & E & _).
  exists rv, m'. split; [exact E|].
  pose proof (wlp_val _ _ _ _ _ _ (wlp_readSensor_cost b wakeupDelay m) E) as H.
  cbv beta in H. unfold spent in H.
  destruct H as [(-> & H)|(-> & H)]; [left|right]; (split; [reflexivity|]); lia.
Qed.

(** ** A line that never changes *)

Lemma first_change_constant b level n p :
  (forall k, line b k = level) -> first_change b level p n = None.
Proof. intros H. apply first_change_none. intros i _. apply H. Qed.

Lemma first_change_other b level n p :
  (forall k, line b k = negb level) -> first_change b level p (S n) = Some O.
Proof.
  intros H. cbn [first_change]. rewrite H.
  destruct level; reflexivity.
Qed.

Lemma unchanging_line_acquisition b wakeupDelay m l :
  (forall k, line b k = l) ->
  exists m',
    _readSensor b wakeupDelay m = Val DHTLIB_ERROR_TIMEOUT m' /\
    bits (dht m') = zero_frame /\
    ticks m' = ticks m /\
    polls m' = (polls m + (if l then 1 else 0) + poll_budget (DHTLIB_TIMEOUT b))%nat /\
    pinlog m' = pinlog m ++ request_events (connected_pin (dht m)) wakeupDelay.
Proof.
  intros Hline.
  assert (H : wp (_readSensor b wakeupDelay)
                 (fun rv m' => rv = DHTLIB_ERROR_TIMEOUT /\
                    bits (dht m') = zero_frame /\ ticks m' = ticks m /\
                    polls m' = (polls m + (if l then 1 else 0)
                                + poll_budget (DHTLIB_TIMEOUT b))%nat /\
                    pinlog m' = pinlog m ++ request_events (connected_pin (dht m)) wakeupDelay)
                 (fun _ _ => False) m).
  { unfold _readSensor. apply wp_call.
    apply wp_bind. unfold wp at 1. rewrite clear_bits_all.
    apply wp_bind. unfold wp at 1, get_pin.
    do 6 (apply wp_bind, wp_emit).
    apply wp_bind. eapply wp_of_eq; [apply busy_poll_closed_form|].
    cbn [polls]. destruct l.
    - pose proof (poll_budget_range b) as HN.
      destruct (poll_budget (DHTLIB_TIMEOUT b)) as [|n] eqn:Eb; [simpl in HN; lia|].
      rewrite first_change_other by exact Hline.
      apply wp_bind. eapply wp_of_eq; [apply busy_poll_closed_form|].
      rewrite first_change_constant by exact Hline. rewrite Eb.
      split; [reflexivity|]. cbn. rewrite <- !app_assoc.
      repeat split; try reflexivity; lia.
    - rewrite first_change_constant by exact Hline.
      split; [reflexivity|]. cbn. rewrite <- !app_assoc.
      repeat split; try reflexivity; lia. }
  apply wp_val in H. destruct H as (rv & m' & E & -> & Hb & Ht & Hp & Hl).
  exists m'. repeat split; assumption.
Qed.

(** X3: when the line never changes level, the acquisition returns
    DHTLIB_ERROR_TIMEOUT while it waits for the acknowledge: after N register
    reads on a line stuck low, after 1 + N on a line stuck high, N being the
    budget of one busy-poll loop.  No clock read is made, the buffer is all
    zero, and [read11] and [_read] then leave -999 in both fields. *)
Theorem unchanging_line_times_out b wakeupDelay m l :
  (forall k, line b k = l) ->
  (exists m',
    _readSensor b wakeupDelay m = Val DHTLIB_ERROR_TIMEOUT m' /\
    bits (dht m') = zero_frame /\
    ticks m' = ticks m /\
    polls m' = (polls m + (if l then 1 else 0) + poll_budget (DHTLIB_TIMEOUT b))%nat /\
    pinlog m' = pinlog m ++ request_events (connected_pin (dht m)) wakeupDelay) /\
  (exists m1, read11 b m = Val DHTLIB_ERROR_TIMEOUT m1 /\
              humidity (dht m1) = of_Z (-999) /\ temperature (dht m1) = of_Z (-999)) /\
  (exists m2, _read b m = Val DHTLIB_ERROR_TIMEOUT m2 /\
              humidity (dht m2) = of_Z (-999) /\ temperature (dht m2) = of_Z (-999)).
Proof.
  intros Hline. split; [apply unchanging_line_acquisition; exact Hline|].
  destruct (unchanging_line_acquisition b DHTLIB_DHT11_WAKEUP m l Hline) as (m' & E & _).
  split; eexists.
  - rewrite (read11_timeout _ _ _ E). repeat split.
  - rewrite (_read_timeout _ _ _ E). repeat split.
Qed.

Lemma unchanging_line_times_out_witness :
  (forall k, line stuck_board k = false) /\
  exists m',
    _readSensor stuck_board DHTLIB_DHT11_WAKEUP (fresh 7) = Val DHTLIB_ERROR_TIMEOUT m' /\
    bits (dht m') = zero_frame /\ polls m' = 400%nat /\ ticks m' = 0%nat.
Proof.
  assert (H : forall k, line stuck_board k = false) by reflexivity.
  split; [exact H|].
  destruct (unchanging_line_times_out stuck_board DHTLIB_DHT11_WAKEUP (fresh 7) false H)
    as ((m' & E & Hb & Ht & Hp & _) & _).
  exists m'. split; [exact E|]. split; [exact Hb|]. split; [|exact Ht].
  rewrite Hp. vm_compute. reflexivity.
Defined.

(** ** Status codes and readings *)

(** X4: on every board and in every state, [read11] and [_read] end, return
    the same status and leave the same frame in the buffer.  The status is
    DHTLIB_OK, DHTLIB_ERROR_CHECKSUM or DHTLIB_ERROR_TIMEOUT, never
    DHTLIB_INVALID_VALUE: TIMEOUT exactly when the acquisition timed out, OK
    exactly when it completed and byte 4 is the sum of bytes 0-3 modulo 256. *)
Theorem read_status_codes b m :
  exists rv0 m0 rv m1 m2,
    _readSensor b DHTLIB_DHT11_WAKEUP m = Val rv0 m0 /\
    read11 b m = Val rv m1 /\
    _read b m = Val rv m2 /\
    bits (dht m1) = bits (dht m0) /\
    bits (dht m2) = bits (dht m0) /\
    (rv = DHTLIB_OK \/ rv = DHTLIB_ERROR_CHECKSUM \/ rv = DHTLIB_ERROR_TIMEOUT) /\
    rv <> DHTLIB_INVALID_VALUE /\
    (rv = DHTLIB_ERROR_TIMEOUT <-> rv0 = DHTLIB_ERROR_TIMEOUT) /\
    (rv = DHTLIB_OK <->
     rv0 = DHTLIB_OK /\ byte4 (bits (dht m0)) = checksum (bits (dht m0))).
Proof.
  destruct (_readSensor_spec b DHTLIB_DHT11_WAKEUP m)
    as (rv0 & m0 & E & _ & _ & _ & _ & _ & [(-> & _)|(-> & _)]).
  - eexists _, m0, _, _, _. split; [exact E|].
    rewrite (read11_ok _ _ _ E), (_read_ok _ _ _ E).
    split; [reflexivity|]. split; [reflexivity|].
    split; [reflexivity|]. split; [reflexivity|].
    destruct (Z.eqb_spec (byte4 (bits (dht m0))) (checksum (bits (dht m0)))) as [H|H].
    + split; [tauto|]. split; [discriminate|]. split; [split; discriminate|tauto].
    + split; [tauto|]. split; [discriminate|]. split; [split; discriminate|].
      split; [discriminate|tauto].
  - eexists _, m0, _, _, _. split; [exact E|].
    rewrite (read11_timeout _ _ _ E), (_read_timeout _ _ _ E).
    split; [reflexivity|]. split; [reflexivity|].
    split; [reflexivity|]. split; [reflexivity|].
    split; [tauto|]. split; [discriminate|]. split; [tauto|].
    split; [discriminate|]. intros (H & _). discriminate.
Qed.

(** X5: after any read, whatever its status, the two reading fields are a
    function of the status and of the frame now in the buffer: -999 after a
    time-out, the values decoded from that frame otherwise.  Nothing of an
    earlier reading survives a failed read. *)
Theorem reading_is_of_this_attempt b m :
  (exists rv m1,
      read11 b m = Val rv m1 /\
      humidity (dht m1)
      = (if code_eqb rv DHTLIB_ERROR_TIMEOUT then of_Z (-999)
         else of_Z (byte0 (bits (dht m1)))) /\
      temperature (dht m1)
      = (if code_eqb rv DHTLIB_ERROR_TIMEOUT then of_Z (-999)
         else of_Z (byte2 (bits (dht m1))))) /\
  (exists rv m2,
      _read b m = Val rv m2 /\
      humidity (dht m2)
      = (if code_eqb rv DHTLIB_ERROR_TIMEOUT then of_Z (-999)
         else scaled_humidity (bits (dht m2))) /\
      temperature (dht m2)
      = (if code_eqb rv DHTLIB_ERROR_TIMEOUT then of_Z (-999)
         else scaled_temperature (bits (dht m2)))).
Proof.
  destruct (_readSensor_spec b DHTLIB_DHT11_WAKEUP m)
    as (rv0 & m0 & E & _ & _ & _ & _ & _ & [(-> & _)|(-> & _)]).
  - rewrite (read11_ok _ _ _ E), (_read_ok _ _ _ E).
    split; eexists _, _; (split; [reflexivity|]);
      destruct (_ =? _); split; reflexivity.
  - rewrite (read11_timeout _ _ _ E), (_read_timeout _ _ _ E).
    split; eexists _, _; (split; [reflexivity|]); split; reflexivity.
Qed.

Lemma sentinel_eqb : Double.eqb sentinel sentinel = true.
Proof. vm_compute. reflexivity. Qed.

(** X6: after [read11] each of the two fields compares equal to -999
    exactly when the call returned DHTLIB_ERROR_TIMEOUT; after [_read] this
    holds of the humidity field. *)
Theorem sentinel_marks_timeouts b m :
  (exists rv m1,
      read11 b m = Val rv m1 /\
      (Double.eqb (humidity (dht m1)) sentinel = true <-> rv = DHTLIB_ERROR_TIMEOUT) /\
      (Double.eqb (temperature (dht m1)) sentinel = true <-> rv = DHTLIB_ERROR_TIMEOUT)) /\
  (exists rv m2,
      _read b m = Val rv m2 /\
      (Double.eqb (humidity (dht m2)) sentinel = true <-> rv = DHTLIB_ERROR_TIMEOUT)).
Proof.
  destruct (_readSensor_spec b DHTLIB_DHT11_WAKEUP m)
    as (rv0 & m0 & E & _ & _ & _ & (B0 & B1 & B2 & B3 & B4) & _ & [(-> & _)|(-> & _)]).
  - rewrite (read11_ok _ _ _ E), (_read_ok _ _ _ E).
    assert (H0 : Double.eqb (of_Z (byte0 (bits (dht m0)))) sentinel = false)
      by (apply nonneg_not_sentinel, signbit_of_Z; unfold is_byte in B0; lia).
    assert (H2 : Double.eqb (of_Z (byte2 (bits (dht m0)))) sentinel = false)
      by (apply nonneg_not_sentinel, signbit_of_Z; unfold is_byte in B2; lia).
    assert (Hs : Double.eqb (scaled_humidity (bits (dht m0))) sentinel = false)
      by (apply nonneg_not_sentinel, signbit_mul_tenth, signbit_of_Z, is_byte_nonneg_be;
          assumption).
    split; eexists _, _; (split; [reflexivity|]);
      cbn [with_reading with_dht dht humidity temperature];
      rewrite ?H0, ?H2, ?Hs; destruct (_ =? _); repeat split; intros; discriminate.
  - rewrite (read11_timeout _ _ _ E), (_read_timeout _ _ _ E).
    split; eexists _, _; (split; [reflexivity|]);
      cbn [with_reading with_dht dht humidity temperature];
      rewrite sentinel_eqb; tauto.
Qed.

(** ** The pin *)

(** X7: all pin operations of an acquisition address [connected_pin], which
    it does not change.  A successful acquisition leaves the pin in OUTPUT
    mode, driven HIGH; one that times out leaves it in INPUT mode, without
    restoring the idle state. *)
Theorem acquisition_pin_operations b wakeupDelay m :
  exists rv m' evs,
    _readSensor b wakeupDelay m = Val rv m' /\
    connected_pin (dht m') = connected_pin (dht m) /\
    pinlog m' = pinlog m ++ evs /\
    Forall (on_pin (connected_pin (dht m))) evs /\
    last_mode (connected_pin (dht m)) evs
    = Some (if code_eqb rv DHTLIB_OK then OUTPUT else INPUT) /\
    last_level (connected_pin (dht m)) evs = Some HIGH.
Proof.
  destruct (_readSensor_spec b wakeupDelay m)
    as (rv & m' & E & _ & _ & Hp & _ & _ & [(-> & L & _)|(-> & L)]);
    eexists _, m', _; (split; [exact E|]); (split; [exact Hp|]); (split; [exact L|]).
  - split; [unfold request_events, release_events; cbn [app];
            repeat (apply Forall_cons; [unfold on_pin; cbn; auto|]); apply Forall_nil|].
    unfold last_mode, last_level, request_events, release_events.
    cbn [fold_left app]. rewrite !Z.eqb_refl. split; reflexivity.
  - split; [unfold request_events, release_events; cbn [app];
            repeat (apply Forall_cons; [unfold on_pin; cbn; auto|]); apply Forall_nil|].
    unfold last_mode, last_level, request_events.
    cbn [fold_left app]. rewrite !Z.eqb_refl. split; reflexivity.
Qed.

(** * Properties of the sketch *)

(** ** waitUntil *)

Lemma wait_loop_spec h d :
  forall fuel s s',
    wait_loop h fuel d s = Some (tt, s') <->
    exists j,
      (j < fuel)%nat /\
      d <= uint32 (millis h (millis_calls s + j)) /\
      (forall i, (i < j)%nat -> uint32 (millis h (millis_calls s + i)) < d) /\
      s' = with_millis_calls s (millis_calls s + j + 1).
Proof.
  induction fuel as [|fuel IH]; intros s s'.
  - split; [discriminate|]. intros (j & Hj & _). lia.
  - cbn [wait_loop]. unfold sbind, read_millis.
    set (s1 := mkSketch (DHT s) (S (millis_calls s)) (messageCount s) (showingMessage s) (out s)).
    destruct (Z.ltb_spec (uint32 (millis h (millis_calls s))) d) as [Hlt|Hge].
    + rewrite IH. cbn [s1 millis_calls]. split.
      * intros (j & Hj & Hd & Hi & ->). exists (S j).
        split; [lia|]. split;
          [replace (millis_calls s + S j)%nat with (S (millis_calls s) + j)%nat by lia; exact Hd|].
        split.
        -- intros [|i] Hi'.
           ++ rewrite Nat.add_0_r. exact Hlt.
           ++ replace (millis_calls s + S i)%nat with (S (millis_calls s) + i)%nat by lia.
              apply Hi. lia.
        -- unfold with_millis_calls, s1. cbn. f_equal. lia.
      * intros (j & Hj & Hd & Hi & ->). destruct j as [|j].
        -- rewrite Nat.add_0_r in Hd. lia.
        -- exists j. split; [lia|]. split;
             [replace (S (millis_calls s) + j)%nat with (millis_calls s + S j)%nat by lia; exact Hd|].
           split.
           ++ intros i Hi'.
              replace (S (millis_calls s) + i)%nat with (millis_calls s + S i)%nat by lia.
              apply Hi. lia.
           ++ unfold with_millis_calls, s1. cbn. f_equal. lia.
    + unfold sret. split.
      * intros E. injection E as <-. exists O.
        split; [lia|]. split; [rewrite Nat.add_0_r; lia|].
        split; [intros i Hi; lia|].
        unfold with_millis_calls, s1. f_equal. lia.
      * intros (j & Hj & Hd & Hi & ->). destruct j as [|j].
        -- unfold with_millis_calls, s1. do 3 f_equal. lia.
        -- specialize (Hi O ltac:(lia)). rewrite Nat.add_0_r in Hi. lia.
Qed.

Lemma waitUntil_spec h fuel w s s' :
  waitUntil h fuel w s = Some (tt, s') <->
  exists j,
    (j < fuel)%nat /\
    uint32 (uint32 (millis h (millis_calls s)) + uint32 w)
    <= uint32 (millis h (millis_calls s + 1 + j)) /\
    (forall i, (i < j)%nat ->
       uint32 (millis h (millis_calls s + 1 + i))
       < uint32 (uint32 (millis h (millis_calls s)) + uint32 w)) /\
    s' = with_millis_calls s (millis_calls s + j + 2).
Proof.
  unfold waitUntil, sbind, read_millis. rewrite wait_loop_spec. cbn [millis_calls].
  split; intros (j & Hj & Hd & Hi & ->); exists j; (split; [exact Hj|]).
  - split; [replace (millis_calls s + 1 + j)%nat with (S (millis_calls s) + j)%nat by lia;
            exact Hd|].
    split.
    + intros i Hi'.
      replace (millis_calls s + 1 + i)%nat with (S (millis_calls s) + i)%nat by lia.
      apply Hi, Hi'.
    + unfold with_millis_calls. cbn. f_equal. lia.
  - split; [replace (S (millis_calls s) + j)%nat with (millis_calls s + 1 + j)%nat by lia;
            exact Hd|].
    split.
    + intros i Hi'.
      replace (S (millis_calls s) + i)%nat with (millis_calls s + 1 + i)%nat by lia.
      apply Hi, Hi'.
    + unfold with_millis_calls. cbn. f_equal. lia.
Qed.

(** X8: [waitUntil(w)] reads the clock once for its start time [t], and
    returns at the first later reading that is not below the deadline
    [(t + w) mod 2^32]; it returns only then, and changes nothing but the
    number of clock reads. *)
Theorem waitUntil_returns_at_deadline h fuel w s s' :
  waitUntil h fuel w s = Some (tt, s') <->
  exists j,
    (j < fuel)%nat /\
    uint32 (uint32 (millis h (millis_calls s)) + uint32 w)
    <= uint32 (millis h (millis_calls s + 1 + j)) /\
    (forall i, (i < j)%nat ->
       uint32 (millis h (millis_calls s + 1 + i))
       < uint32 (uint32 (millis h (millis_calls s)) + uint32 w)) /\
    s' = with_millis_calls s (millis_calls s + j + 2).
Proof. apply waitUntil_spec. Qed.

(** X9: when the 32-bit sum [t + w] wraps, [waitUntil] returns at the very
    next reading of a clock that has not wrapped yet: it does not wait. *)
Theorem waitUntil_wraps_without_waiting h fuel w s :
  0 <= w < 4294967296 ->
  4294967296 <= uint32 (millis h (millis_calls s)) + w ->
  uint32 (millis h (millis_calls s)) <= uint32 (millis h (millis_calls s + 1)) ->
  (1 <= fuel)%nat ->
  waitUntil h fuel w s = Some (tt, with_millis_calls s (millis_calls s + 2)).
Proof.
  intros Hw Hwrap Hmono Hfuel.
  apply waitUntil_spec. exists O.
  split; [lia|].
  assert (Ht : 0 <= uint32 (millis h (millis_calls s)) < 4294967296)
    by (unfold uint32; apply Z.mod_pos_bound; lia).
  assert (Hd : uint32 (uint32 (millis h (millis_calls s)) + uint32 w)
               = uint32 (millis h (millis_calls s)) + w - 4294967296).
  { unfold uint32 at 1 3. rewrite (Z.mod_small w) by lia.
    symmetry. apply Z.mod_unique with (q := 1); lia. }
  rewrite Hd, Nat.add_0_r. split; [lia|].
  split; [intros i Hi; lia|]. f_equal. lia.
Qed.

Lemma waitUntil_wraps_without_waiting_witness :
  0 <= 2000 < 4294967296 /\
  4294967296 <= uint32 (millis late_host (millis_calls boot)) + 2000 /\
  uint32 (millis late_host (millis_calls boot))
  <= uint32 (millis late_host (millis_calls boot + 1)) /\
  (1 <= 1)%nat /\
  waitUntil late_host 1 2000 boot = Some (tt, with_millis_calls boot 2).
Proof.
  assert (H1 : 0 <= 2000 < 4294967296) by lia.
  assert (H2 : 4294967296 <= uint32 (millis late_host (millis_calls boot)) + 2000)
    by (vm_compute; discriminate).
  assert (H3 : uint32 (millis late_host (millis_calls boot))
               <= uint32 (millis late_host (millis_calls boot + 1)))
    by (vm_compute; discriminate).
  assert (H4 : (1 <= 1)%nat) by lia.
  repeat (split; [assumption|]).
  exact (waitUntil_wraps_without_waiting late_host 1 2000 boot H1 H2 H3 H4).
Defined.

(** ** showTemp and welcome *)

Lemma waitUntil_only_clock h fuel w s s' :
  waitUntil h fuel w s = Some (tt, s') -> exists n, s' = with_millis_calls s n.
Proof.
  intros H. apply waitUntil_spec in H. destruct H as (j & _ & _ & _ & ->). eauto.
Qed.

Lemma welcome_result s :
  welcome s = Some (tt, mkSketch (DHT s) (millis_calls s) (messageCount s) (showingMessage s)
                                 (out s ++ welcome_screen)).
Proof.
  unfold welcome, sbind, send, welcome_screen. cbn.
  rewrite <- !app_assoc. reflexivity.
Qed.

Lemma sbind_send {B : Type} o (k : unit -> SM B) s :
  sbind (send o) k s
  = k tt (mkSketch (DHT s) (millis_calls s) (messageCount s) (showingMessage s) (out s ++ [o])).
Proof. reflexivity. Qed.

Lemma sbind_getTemperature {B : Type} (k : double -> SM B) s :
  sbind (on_DHT getTemperature) k s
  = k (temperature (dht (DHT s)))
      (mkSketch (DHT s) (millis_calls s) (messageCount s) (showingMessage s) (out s)).
Proof. reflexivity. Qed.

Lemma sbind_getHumidity {B : Type} (k : double -> SM B) s :
  sbind (on_DHT getHumidity) k s
  = k (humidity (dht (DHT s)))
      (mkSketch (DHT s) (millis_calls s) (messageCount s) (showingMessage s) (out s)).
Proof. reflexivity. Qed.

Lemma showTemp_result h s :
  exists chk m1,
    read11 (board h) (DHT s) = Val chk m1 /\
    showTemp h s =
    Some (tt, mkSketch m1 (millis_calls s) (messageCount s) (showingMessage s)
                       (out s ++ (if code_eqb chk DHTLIB_OK
                                  then reading_screen (temperature (dht m1)) (humidity (dht m1))
                                  else error_screen (code_value chk)))).
Proof.
  destruct (reads_end (board h) (DHT s)) as ((chk & m1 & E) & _).
  exists chk, m1. split; [exact E|].
  unfold showTemp, sbind at 1, on_DHT at 1. rewrite E.
  destruct (code_eqb chk DHTLIB_OK).
  - repeat (first [rewrite sbind_send | rewrite sbind_getTemperature | rewrite sbind_getHumidity];
            cbn [DHT millis_calls messageCount showingMessage out]).
    unfold send, reading_screen. cbn [DHT millis_calls messageCount showingMessage out].
    rewrite <- !app_assoc. reflexivity.
  - repeat (rewrite sbind_send; cbn [DHT millis_calls messageCount showingMessage out]).
    unfold send, error_screen, double_of_code.
    cbn [DHT millis_calls messageCount showingMessage out].
    rewrite <- !app_assoc. reflexivity.
Qed.

(** ** loop *)

Lemma loop_parts h fuel s :
  loop h fuel s = sbind (loop_content h) (fun _ => sbind loop_count (fun _ => loop_blink h fuel)) s.
Proof. reflexivity. Qed.

Lemma loop_content_result h s :
  exists m1 o1,
    content_of h s m1 o1 /\
    loop_content h s
    = Some (tt, mkSketch m1 (millis_calls s) (messageCount s) (showingMessage s) (out s ++ o1)).
Proof.
  unfold loop_content, sbind at 1, get_messageCount.
  destruct (Z.eqb_spec (messageCount s) 0) as [E|E].
  - unfold sbind at 1, send. unfold sbind at 1, get_showingMessage. cbn [showingMessage].
    destruct (showingMessage s) eqn:Sm.
    + match goal with |- context [showTemp h ?s1] =>
        destruct (showTemp_result h s1) as (chk & m1 & R & T) end.
      cbn [DHT millis_calls messageCount showingMessage out] in R, T.
      eexists m1, _. split; [right; left; split; [exact E|split; [first [exact Sm|reflexivity]|]];
                             exists chk; split; [exact R|reflexivity]|].
      rewrite T, ?Sm. rewrite <- app_assoc. reflexivity.
    + rewrite welcome_result. cbn [DHT millis_calls messageCount showingMessage out].
      eexists (DHT s), _. split; [right; right; repeat split; assumption|].
      rewrite ?Sm, <- app_assoc. reflexivity.
  - exists (DHT s), []. split; [left; repeat split; assumption|].
    unfold sret. rewrite app_nil_r. destruct s; reflexivity.
Qed.

Lemma loop_blink_result h fuel s s' :
  loop_blink h fuel s = Some (tt, s') ->
  exists n, s' = mkSketch (DHT s) n (messageCount s) (showingMessage s)
                          (out s ++ [LcdDisplay; LcdNoDisplay]).
Proof.
  unfold loop_blink, sbind at 1, send. unfold sbind at 1.
  destruct (waitUntil h fuel 2000 _) as [[[] s1]|] eqn:W1; [|discriminate].
  apply waitUntil_only_clock in W1. destruct W1 as (n1 & ->).
  unfold sbind at 1, send.
  intros W2. apply waitUntil_only_clock in W2. destruct W2 as (n2 & ->).
  exists n2. unfold with_millis_calls. cbn. rewrite <- app_assoc. reflexivity.
Qed.

Lemma loop_count_result s :
  loop_count s
  = Some (tt, mkSketch (DHT s) (millis_calls s)
                       (if NB_MSG_COUNT <? messageCount s then 0 else int16 (messageCount s + 1))
                       (if NB_MSG_COUNT <? messageCount s then negb (showingMessage s)
                        else showingMessage s)
                       (out s)).
Proof.
  unfold loop_count, sbind, get_messageCount, set_messageCount, get_showingMessage,
    set_showingMessage, sret.
  cbn [DHT millis_calls messageCount showingMessage out].
  destruct (NB_MSG_COUNT <? messageCount s); reflexivity.
Qed.

Lemma loop_shape h fuel s s' :
  loop h fuel s = Some (tt, s') ->
  exists m1 o1 n,
    content_of h s m1 o1 /\
    s' = mkSketch m1 n
           (if NB_MSG_COUNT <? messageCount s then 0 else int16 (messageCount s + 1))
           (if NB_MSG_COUNT <? messageCount s then negb (showingMessage s)
            else showingMessage s)
           (out s ++ o1 ++ [LcdDisplay; LcdNoDisplay]).
Proof.
  rewrite loop_parts. unfold sbind at 1.
  destruct (loop_content_result h s) as (m1 & o1 & C & ->).
  unfold sbind at 1. rewrite loop_count_result.
  cbn [DHT millis_calls messageCount showingMessage out].
  intros H. exists m1, o1.
  apply loop_blink_result in H. destruct H as (n & ->).
  exists n. split; [exact C|].
  cbn [DHT millis_calls messageCount showingMessage out].
  rewrite <- app_assoc. reflexivity.
Qed.

(** X10: a call of [loop] that finds the counter different from 0 does not
    touch the sensor and prints nothing: it switches the display on and
    off, and waits. *)
Theorem loop_idle_iteration h fuel s s' :
  messageCount s <> 0 ->
  loop h fuel s = Some (tt, s') ->
  DHT s' = DHT s /\ out s' = out s ++ [LcdDisplay; LcdNoDisplay].
Proof.
  intros Hmc H. apply loop_shape in H.
  destruct H as (m1 & o1 & n & [(_ & -> & ->)|[(E & _)|(E & _)]] & ->); try contradiction.
  split; reflexivity.
Qed.

Lemma loop_idle_iteration_witness :
  messageCount (mkSketch (DHT boot) 0 2 true []) <> 0 /\
  loop demo_host 5 (mkSketch (DHT boot) 0 2 true [])
  = Some (tt, after (loop demo_host 5) (mkSketch (DHT boot) 0 2 true [])) /\
  DHT (after (loop demo_host 5) (mkSketch (DHT boot) 0 2 true [])) = DHT boot /\
  out (after (loop demo_host 5) (mkSketch (DHT boot) 0 2 true [])) = [LcdDisplay; LcdNoDisplay].
Proof.
  assert (H1 : messageCount (mkSketch (DHT boot) 0 2 true []) <> 0) by (cbn; lia).
  assert (H2 : loop demo_host 5 (mkSketch (DHT boot) 0 2 true [])
               = Some (tt, after (loop demo_host 5) (mkSketch (DHT boot) 0 2 true [])))
    by (vm_compute; reflexivity).
  split; [exact H1|]. split; [exact H2|].
  exact (loop_idle_iteration _ _ _ _ H1 H2).
Defined.

(** X11: [showTemp] reads the sensor once with [read11].  It prints the two
    readings only when the status is DHTLIB_OK, that is for a frame whose
    checksum holds, and then they are bytes 2 and 0 of that frame; after a
    checksum error or a time-out it prints the error screen with the status
    -1 or -2, and none of the values left in the fields. *)
Theorem showTemp_shows_checked_readings h s :
  exists chk m1 s' added,
    read11 (board h) (DHT s) = Val chk m1 /\
    showTemp h s = Some (tt, s') /\
    s' = mkSketch m1 (millis_calls s) (messageCount s) (showingMessage s) (out s ++ added) /\
    ((chk = DHTLIB_OK /\
      byte4 (bits (dht m1)) = checksum (bits (dht m1)) /\
      added = reading_screen (of_Z (byte2 (bits (dht m1)))) (of_Z (byte0 (bits (dht m1)))))
     \/
     (chk = DHTLIB_ERROR_CHECKSUM /\
      byte4 (bits (dht m1)) <> checksum (bits (dht m1)) /\
      added = error_screen (-1) /\
      filter shows_value added = [LcdPrintDouble (of_Z (-1)) 0])
     \/
     (chk = DHTLIB_ERROR_TIMEOUT /\
      added = error_screen (-2) /\
      filter shows_value added = [LcdPrintDouble (of_Z (-2)) 0])).
Proof.
  destruct (showTemp_result h s) as (chk & m1 & R & T).
  exists chk, m1. eexists _, _. split; [exact R|]. split; [exact T|]. split; [reflexivity|].
  destruct (_readSensor_spec (board h) DHTLIB_DHT11_WAKEUP (DHT s))
    as (rv0 & m0 & E & _ & _ & _ & _ & _ & [(-> & _)|(-> & _)]).
  - rewrite (read11_ok _ _ _ E) in R. injection R as <- <-.
    cbn [with_reading with_dht dht bits humidity temperature].
    destruct (Z.eqb_spec (byte4 (bits (dht m0))) (checksum (bits (dht m0)))) as [H|H].
    + left. repeat split; assumption.
    + right; left. repeat split; assumption.
  - rewrite (read11_timeout _ _ _ E) in R. injection R as <- <-.
    right; right. repeat split.
Qed.

(** ** The schedule of loop *)




(** The pin events of one [read11]. *)
Lemma read11_log b m chk m1 :
  read11 b m = Val chk m1 ->
  connected_pin (dht m1) = connected_pin (dht m) /\
  exists evs,
    pinlog m1 = pinlog m ++ evs /\
    Forall (on_pin (connected_pin (dht m))) evs /\
    wakeups 18 evs = 1%nat.
Proof.
  intros R.
  assert (F : forall tl, tl = [] \/ tl = release_events (connected_pin (dht m)) ->
            Forall (on_pin (connected_pin (dht m)))
                   (request_events (connected_pin (dht m)) DHTLIB_DHT11_WAKEUP ++ tl) /\
            wakeups 18 (request_events (connected_pin (dht m)) DHTLIB_DHT11_WAKEUP ++ tl) = 1%nat).
  { intros tl [-> | ->]; (split; [|reflexivity]);
      unfold request_events, release_events; cbn [app];
      repeat (apply Forall_cons; [unfold on_pin; cbn; auto|]); apply Forall_nil. }
  destruct (_readSensor_spec b DHTLIB_DHT11_WAKEUP m)
    as (rv0 & m0 & E & _ & _ & Hp & _ & _ & [(-> & L & _)|(-> & L)]).
  - rewrite (read11_ok _ _ _ E) in R. injection R as <- <-.
    split; [exact Hp|]. eexists. split; [exact L|]. apply F. auto.
  - rewrite (read11_timeout _ _ _ E) in R. injection R as <- <-.
    split; [exact Hp|]. exists (request_events (connected_pin (dht m)) DHTLIB_DHT11_WAKEUP ++ []).
    split; [cbn [with_reading with_dht pinlog]; rewrite app_nil_r; exact L|]. apply F. auto.
Qed.









(** ** The pin of the sketch *)

Lemma setup_result h fuel s s' :
  setup h fuel s = Some (tt, s') ->
  connected_pin (dht (DHT s')) = 7 /\
  pinlog (DHT s') = pinlog (DHT s) /\
  humidity (dht (DHT s')) = humidity (dht (DHT s)) /\
  temperature (dht (DHT s')) = temperature (dht (DHT s)) /\
  messageCount s' = messageCount s /\
  showingMessage s' = showingMessage s /\
  out s' = out s ++ [SerialBegin 9600; LcdBegin 16 2; LcdClear].
Proof.
  unfold setup, sbind at 1, send. unfold sbind at 1.
  destruct (waitUntil h fuel 2000 _) as [[[] s1]|] eqn:W; [|discriminate].
  apply waitUntil_only_clock in W. destruct W as (n & ->).
  cbn. intros E. injection E as <-. cbn. rewrite <- !app_assoc. repeat split.
Qed.

Lemma loops_pins h fuel :
  forall n s s',
    loops h fuel n s = Some (tt, s') ->
    connected_pin (dht (DHT s')) = connected_pin (dht (DHT s)) /\
    exists evs,
      pinlog (DHT s') = pinlog (DHT s) ++ evs /\
      Forall (on_pin (connected_pin (dht (DHT s)))) evs.
Proof.
  induction n as [|n IH]; intros s s' H.
  - cbn in H. injection H as <-. split; [reflexivity|].
    exists []. split; [rewrite app_nil_r; reflexivity|apply Forall_nil].
  - cbn [loops] in H. unfold sbind in H.
    destruct (loop h fuel s) as [[[] s1]|] eqn:L; [|discriminate].
    destruct (IH _ _ H) as (P2 & evs2 & L2 & F2).
    apply loop_shape in L. destruct L as (m1 & o1 & k & C & ->).
    cbn [DHT] in P2, L2, F2.
    assert (C' : connected_pin (dht m1) = connected_pin (dht (DHT s)) /\
                 exists evs, pinlog m1 = pinlog (DHT s) ++ evs /\
                             Forall (on_pin (connected_pin (dht (DHT s)))) evs).
    { destruct C as [(_ & -> & _)|[(_ & _ & chk & R & _)|(_ & _ & -> & _)]].
      - split; [reflexivity|]. exists []. split; [rewrite app_nil_r; reflexivity|apply Forall_nil].
      - destruct (read11_log _ _ _ _ R) as (P & evs & L & F & _). split; [exact P|]. eauto.
      - split; [reflexivity|]. exists []. split; [rewrite app_nil_r; reflexivity|apply Forall_nil]. }
    destruct C' as (P1 & evs1 & L1 & F1).
    split; [congruence|]. exists (evs1 ++ evs2).
    split; [rewrite L2, L1, app_assoc; reflexivity|].
    apply Forall_app. split; [exact F1|]. rewrite <- P1. exact F2.
Qed.

(** X14: once [setup] has run, however many times [loop] is called, the
    driver stays bound to pin 7, and every pin operation it makes addresses
    pin 7. *)
Theorem sketch_drives_pin_7_only h fuel n s0 s1 s2 :
  setup h fuel s0 = Some (tt, s1) ->
  loops h fuel n s1 = Some (tt, s2) ->
  connected_pin (dht (DHT s2)) = 7 /\
  exists evs,
    pinlog (DHT s2) = pinlog (DHT s0) ++ evs /\
    Forall (on_pin 7) evs.
Proof.
  intros H1 H2. apply setup_result in H1. destruct H1 as (P1 & L1 & _).
  apply loops_pins in H2. destruct H2 as (P2 & evs & L2 & F2).
  rewrite P1 in P2, F2. split; [exact P2|].
  exists evs. split; [rewrite L2, L1; reflexivity|exact F2].
Qed.

Lemma sketch_drives_pin_7_only_witness :
  setup demo_host 5 boot = Some (tt, after (setup demo_host 5) boot) /\
  loops demo_host 5 9 (after (setup demo_host 5) boot)
  = Some (tt, after (loops demo_host 5 9) (after (setup demo_host 5) boot)) /\
  connected_pin (dht (DHT (after (loops demo_host 5 9) (after (setup demo_host 5) boot)))) = 7 /\
  exists evs,
    pinlog (DHT (after (loops demo_host 5 9) (after (setup demo_host 5) boot)))
    = pinlog (DHT boot) ++ evs /\
    Forall (on_pin 7) evs.
Proof.
  assert (H1 : setup demo_host 5 boot = Some (tt, after (setup demo_host 5) boot))
    by (vm_compute; reflexivity).
  assert (H2 : loops demo_host 5 9 (after (setup demo_host 5) boot)
               = Some (tt, after (loops demo_host 5 9) (after (setup demo_host 5) boot)))
    by (vm_compute; reflexivity).
  split; [exact H1|]. split; [exact H2|].
  exact (sketch_drives_pin_7_only _ _ _ _ _ _ H1 H2).
Defined.
